(** * A PSR-3 style file logger with channel proxies

    Shallow embedding of [src/__init__.py]: the classes [SimpleLogger]
    (the root logger, owner of the file object and of the registry of
    channel proxies) and [SimpleLoggerProxy] (a handle bound to one root
    logger and one channel name).

    Layout of the development:
    - text: Python [str] values as lists of code points, with the parts
      of [str.lower], [str.upper], [repr] and [json.dumps] the logger
      relies on;
    - values: the Python values a caller may pass as [context] or [extra];
    - the world: a heap of objects (identity is the address), a file
      system and the wall clock, threaded through a state-and-exception
      monad;
    - the two classes, method by method, in the order of their calls;
    - the properties.

    What the embedding covers: text is a sequence of code points and a
    file holds text; of the encoding to bytes, the characters a file
    object can encode are kept, since [fp.write] refuses the others. A
    path leads to a file through the name resolution of the operating
    system, which the world carries as it is: two spellings of one file
    lead to the same file. File systems hold regular files and
    directories, and the device takes what is flushed. Values are
    [None], [bool], [int], [str], lists, tuples, dicts and opaque
    objects (no floating point numbers; a value cannot contain itself and
    is nested less deeply than the recursion limit); the text a file
    object has accepted and not yet flushed is kept whole, whatever its
    size. *)

From Stdlib Require Import ZArith NArith List String Ascii Lia Bool.
From stdpp Require Import gmap strings.

Set Default Proof Using "Type".

(** ** Text *)

(** A Python [str] is a sequence of Unicode code points. *)
Abbreviation pystr := (list N).

(** Source literals are written as Rocq strings and read as their
    code points. *)
Definition lit (s : string) : pystr :=
  map N_of_ascii (list_ascii_of_string s).
Arguments lit s%_string : simpl never.

Definition QUOTE : N := 34.      (* the double quote *)
Definition APOSTROPHE : N := 39. (* the single quote *)
Definition BACKSLASH : N := 92.
Definition NEWLINE : N := 10.

Definition is_ascii (c : N) : bool := (c <? 128)%N.

Definition ascii_lower (c : N) : N :=
  if ((65 <=? c) && (c <=? 90))%N then (c + 32)%N else c.

Definition ascii_upper (c : N) : N :=
  if ((97 <=? c) && (c <=? 122))%N then (c - 32)%N else c.

(** The tables of the Unicode character database are not part of the
    logger; outside of ASCII the case mappings and the printable
    property are taken from the interpreter. With them come its two
    other settings that the text of an entry depends on: the limit on
    the decimal digits of an [int] that is converted to text
    ([sys.get_int_max_str_digits()], 0 when there is none), and the
    characters that the encoding of a text file can encode. *)
Class UnicodeData := {
  ucd_lower : pystr -> pystr;
  ucd_upper : pystr -> pystr;
  ucd_isprintable : N -> bool;
  int_max_str_digits : N;
  can_encode : N -> bool
}.

(** [str.lower] and [str.upper]: CPython converts an all-ASCII string
    character by character and hands any other string to the general
    Unicode case operation. *)
Definition str_lower `{UnicodeData} (s : pystr) : pystr :=
  if forallb is_ascii s then map ascii_lower s else ucd_lower s.

Definition str_upper `{UnicodeData} (s : pystr) : pystr :=
  if forallb is_ascii s then map ascii_upper s else ucd_upper s.

(** [sep.join(parts)] *)
Fixpoint join (sep : pystr) (parts : list pystr) : pystr :=
  match parts with
  | [] => []
  | [p] => p
  | p :: rest => p ++ sep ++ join sep rest
  end.

(** Decimal and lower-case hexadecimal numerals. *)
Fixpoint dec_digits (u : Decimal.uint) : pystr :=
  match u with
  | Decimal.Nil => []
  | Decimal.D0 r => 48%N :: dec_digits r
  | Decimal.D1 r => 49%N :: dec_digits r
  | Decimal.D2 r => 50%N :: dec_digits r
  | Decimal.D3 r => 51%N :: dec_digits r
  | Decimal.D4 r => 52%N :: dec_digits r
  | Decimal.D5 r => 53%N :: dec_digits r
  | Decimal.D6 r => 54%N :: dec_digits r
  | Decimal.D7 r => 55%N :: dec_digits r
  | Decimal.D8 r => 56%N :: dec_digits r
  | Decimal.D9 r => 57%N :: dec_digits r
  end.

Fixpoint hex_digits (u : Hexadecimal.uint) : pystr :=
  match u with
  | Hexadecimal.Nil => []
  | Hexadecimal.D0 r => 48%N :: hex_digits r
  | Hexadecimal.D1 r => 49%N :: hex_digits r
  | Hexadecimal.D2 r => 50%N :: hex_digits r
  | Hexadecimal.D3 r => 51%N :: hex_digits r
  | Hexadecimal.D4 r => 52%N :: hex_digits r
  | Hexadecimal.D5 r => 53%N :: hex_digits r
  | Hexadecimal.D6 r => 54%N :: hex_digits r
  | Hexadecimal.D7 r => 55%N :: hex_digits r
  | Hexadecimal.D8 r => 56%N :: hex_digits r
  | Hexadecimal.D9 r => 57%N :: hex_digits r
  | Hexadecimal.Da r => 97%N :: hex_digits r
  | Hexadecimal.Db r => 98%N :: hex_digits r
  | Hexadecimal.Dc r => 99%N :: hex_digits r
  | Hexadecimal.Dd r => 100%N :: hex_digits r
  | Hexadecimal.De r => 101%N :: hex_digits r
  | Hexadecimal.Df r => 102%N :: hex_digits r
  end.

(** The decimal numeral of a non-negative and of an arbitrary [int]. *)
Definition nat_str (n : N) : pystr := dec_digits (N.to_uint n).

Definition int_str (z : Z) : pystr :=
  match Z.to_int z with
  | Decimal.Pos u => dec_digits u
  | Decimal.Neg u => 45%N :: dec_digits u
  end.

(** The conversion of an [int] to text is refused when the number has
    more decimal digits, the sign left aside, than the limit of the
    interpreter. *)
Definition int_too_long `{UnicodeData} (z : Z) : bool :=
  ((0 <? int_max_str_digits)
   && (int_max_str_digits <? N.of_nat (length (nat_str (Z.abs_N z)))))%N.

(** A text of ASCII characters as a Rocq string, for messages. *)
Definition unlit (s : pystr) : string :=
  string_of_list_ascii (map ascii_of_N s).

(** [s.zfill(width)] on a string of digits. *)
Definition zfill (width : nat) (s : pystr) : pystr :=
  repeat 48%N (width - length s) ++ s.

(** ['{:0<width>x}'.format(c)] *)
Definition hex_fill (width : nat) (c : N) : pystr :=
  zfill width (hex_digits (N.to_hex_uint c)).

(** *** [json.dumps] of a string (the default [ensure_ascii=True]) *)

Definition json_escape_char (c : N) : pystr :=
  if (c =? QUOTE)%N then [BACKSLASH; QUOTE]
  else if (c =? BACKSLASH)%N then [BACKSLASH; BACKSLASH]
  else if (c =? 10)%N then BACKSLASH :: lit "n"
  else if (c =? 13)%N then BACKSLASH :: lit "r"
  else if (c =? 9)%N then BACKSLASH :: lit "t"
  else if (c =? 8)%N then BACKSLASH :: lit "b"
  else if (c =? 12)%N then BACKSLASH :: lit "f"
  else if ((32 <=? c) && (c <=? 126))%N then [c]
  else if (c <? 65536)%N then BACKSLASH :: lit "u" ++ hex_fill 4 c
  else
    let v := (c - 65536)%N in
    let s1 := N.lor 55296 (N.land (N.shiftr v 10) 1023) in
    let s2 := N.lor 56320 (N.land v 1023) in
    BACKSLASH :: lit "u" ++ hex_fill 4 s1 ++ BACKSLASH :: lit "u" ++ hex_fill 4 s2.

Definition json_string (s : pystr) : pystr :=
  QUOTE :: flat_map json_escape_char s ++ [QUOTE].

(** *** [repr] of a string *)

Definition repr_quote (s : pystr) : N :=
  if existsb (N.eqb APOSTROPHE) s && negb (existsb (N.eqb QUOTE) s)
  then QUOTE else APOSTROPHE.

Definition repr_escape_char `{UnicodeData} (quote c : N) : pystr :=
  if ((c =? quote) || (c =? BACKSLASH))%N then [BACKSLASH; c]
  else if (c =? 9)%N then BACKSLASH :: lit "t"
  else if (c =? 10)%N then BACKSLASH :: lit "n"
  else if (c =? 13)%N then BACKSLASH :: lit "r"
  else if ((c <? 32) || (c =? 127))%N then BACKSLASH :: lit "x" ++ hex_fill 2 c
  else if (c <? 127)%N then [c]
  else if ucd_isprintable c then [c]
  else if (c <=? 255)%N then BACKSLASH :: lit "x" ++ hex_fill 2 c
  else if (c <=? 65535)%N then BACKSLASH :: lit "u" ++ hex_fill 4 c
  else BACKSLASH :: lit "U" ++ hex_fill 8 c.

Definition str_repr `{UnicodeData} (s : pystr) : pystr :=
  let q := repr_quote s in
  q :: flat_map (repr_escape_char q) s ++ [q].

(** ** Exceptions *)

(** The subclasses of [OSError] that [open] raises, and [OSError] itself
    with any other error number. *)
Inductive oserror :=
| FileNotFoundError
| PermissionError
| IsADirectoryError
| NotADirectoryError
| OtherOSError (errno : N).

(** An exception is its class and its message; for [AttributeError] the
    name of the missing attribute, for [KeyError] the missing key, for
    [UnicodeEncodeError] the class alone. *)
Inductive pyexc :=
| OSError (e : oserror)
| ValueError (msg : string)
| UnicodeEncodeError
| TypeError (msg : string)
| AttributeError (name : string)
| KeyError (key : pystr)
| RuntimeError (msg : string).

(** [isinstance(e, OSError)]: the I/O errors of Python. *)
Definition is_OSError (e : pyexc) : bool :=
  match e with
  | OSError _ => true
  | _ => false
  end.

(** A computation returns a value or raises. *)
Inductive outcome (A : Type) :=
| Ok (a : A)
| Raise (e : pyexc).
Arguments Ok {A} a.
Arguments Raise {A} e.

Definition outcome_bind {A B} (o : outcome A) (k : A -> outcome B) : outcome B :=
  match o with
  | Ok a => k a
  | Raise e => Raise e
  end.

(** [int.__repr__], which [str], [repr] and [json.dumps] all use for an
    [int]: the numeral, or the [ValueError] of the digit limit. *)
Definition int_limit_error `{UnicodeData} : pyexc :=
  ValueError ("Exceeds the limit (" +:+ unlit (nat_str int_max_str_digits)
              +:+ " digits) for integer string conversion; "
              +:+ "use sys.set_int_max_str_digits() to increase the limit").

Definition int_text `{UnicodeData} (z : Z) : outcome pystr :=
  if int_too_long z then Raise int_limit_error else Ok (int_str z).

(** ** Values *)

(** The values a caller can pass as [context] or [extra]. [PyObject]
    stands for an instance of any other class (a [set], [bytes], a user
    class), given by the name of its class and the text that both [str]
    and [repr] produce for it. Floating point numbers are left out. *)
#[warnings="-register-all"] Inductive pyval :=
| PyNone
| PyBool (b : bool)
| PyInt (z : Z)
| PyStr (s : pystr)
| PyList (items : list pyval)
| PyTuple (items : list pyval)
| PyDict (items : list (pyval * pyval))
| PyObject (type_name : string) (text : pystr).

Definition is_None (v : pyval) : bool :=
  match v with
  | PyNone => true
  | _ => false
  end.

(** [type(v).__name__] *)
Definition type_name_of (v : pyval) : string :=
  match v with
  | PyNone => "NoneType"
  | PyBool _ => "bool"
  | PyInt _ => "int"
  | PyStr _ => "str"
  | PyList _ => "list"
  | PyTuple _ => "tuple"
  | PyDict _ => "dict"
  | PyObject ty _ => ty
  end.

(** *** [json.dumps] with its default arguments *)

(** The key of a dict entry: strings as they are, [int], [bool] and
    [None] through their JSON text, anything else is refused. *)
Definition json_key `{UnicodeData} (k : pyval) : outcome pystr :=
  match k with
  | PyStr s => Ok (json_string s)
  | PyInt z => outcome_bind (int_text z) (fun s => Ok (json_string s))
  | PyBool true => Ok (json_string (lit "true"))
  | PyBool false => Ok (json_string (lit "false"))
  | PyNone => Ok (json_string (lit "null"))
  | _ => Raise (TypeError ("keys must be str, int, float, bool or None, not "
                           +:+ type_name_of k))
  end.

Fixpoint json_dumps `{UnicodeData} (v : pyval) : outcome pystr :=
  match v with
  | PyNone => Ok (lit "null")
  | PyBool true => Ok (lit "true")
  | PyBool false => Ok (lit "false")
  | PyInt z => int_text z
  | PyStr s => Ok (json_string s)
  | PyList items | PyTuple items =>
      outcome_bind
        ((fix each (l : list pyval) : outcome (list pystr) :=
            match l with
            | [] => Ok []
            | x :: rest =>
                outcome_bind (json_dumps x) (fun s =>
                outcome_bind (each rest) (fun ss => Ok (s :: ss)))
            end) items)
        (fun parts => Ok (lit "[" ++ join (lit ", ") parts ++ lit "]"))
  | PyDict items =>
      outcome_bind
        ((fix each (l : list (pyval * pyval)) : outcome (list pystr) :=
            match l with
            | [] => Ok []
            | (k, x) :: rest =>
                outcome_bind (json_key k) (fun ks =>
                outcome_bind (json_dumps x) (fun s =>
                outcome_bind (each rest) (fun ss =>
                Ok ((ks ++ lit ": " ++ s) :: ss))))
            end) items)
        (fun parts => Ok (lit "{" ++ join (lit ", ") parts ++ lit "}"))
  | PyObject ty _ =>
      Raise (TypeError ("Object of type " +:+ ty +:+ " is not JSON serializable"))
  end.

(** *** [repr] and [str]

    [repr] and [str] raise when they meet an [int] beyond the digit
    limit, and nothing else makes them raise on these values;
    [py_repr] and [py_str] are the text they return when they return. *)

Fixpoint has_long_int `{UnicodeData} (v : pyval) : bool :=
  match v with
  | PyInt z => int_too_long z
  | PyList items | PyTuple items => existsb has_long_int items
  | PyDict items =>
      existsb (fun kv => has_long_int (fst kv) || has_long_int (snd kv)) items
  | _ => false
  end.

Fixpoint py_repr `{UnicodeData} (v : pyval) : pystr :=
  match v with
  | PyNone => lit "None"
  | PyBool true => lit "True"
  | PyBool false => lit "False"
  | PyInt z => int_str z
  | PyStr s => str_repr s
  | PyList items =>
      lit "[" ++ join (lit ", ") (map py_repr items) ++ lit "]"
  | PyTuple items =>
      match items with
      | [x] => lit "(" ++ py_repr x ++ lit ",)"
      | _ => lit "(" ++ join (lit ", ") (map py_repr items) ++ lit ")"
      end
  | PyDict items =>
      lit "{" ++ join (lit ", ")
        (map (fun kv => py_repr (fst kv) ++ lit ": " ++ py_repr (snd kv)) items)
      ++ lit "}"
  | PyObject _ text => text
  end.

(** [str(v)]: a string is itself, every other value is its [repr]. *)
Definition py_str `{UnicodeData} (v : pyval) : pystr :=
  match v with
  | PyStr s => s
  | _ => py_repr v
  end.

(** The conversion [!s] of [str.format], that is the call [str(v)]. *)
Definition format_str `{UnicodeData} (v : pyval) : outcome pystr :=
  if has_long_int v then Raise int_limit_error else Ok (py_str v).

(** ** The world *)

(** Local wall-clock time, as [datetime.datetime.now()] reads it from
    the system clock: a date and a time of day, in a year of four
    digits (the system clock does not go back beyond the 20th century,
    and the type ends with the year 9999). *)
Definition clock_range (y mo d h mi s : N) : bool :=
  ((1000 <=? y) && (y <=? 9999) && (1 <=? mo) && (mo <=? 12)
   && (1 <=? d) && (d <=? 31) && (h <? 24) && (mi <? 60) && (s <? 60))%N.

Record datetime := {
  year : N; month : N; day : N;
  hour : N; minute : N; second : N;
  in_range : clock_range year month day hour minute second = true
}.

(** [now.strftime('%Y-%m-%d %H:%M:%S')]: the year as it is (the C
    library does not pad it), the other fields on two digits. *)
Definition strftime (d : datetime) : pystr :=
  nat_str (year d) ++ lit "-" ++ zfill 2 (nat_str (month d))
  ++ lit "-" ++ zfill 2 (nat_str (day d)) ++ lit " "
  ++ zfill 2 (nat_str (hour d)) ++ lit ":" ++ zfill 2 (nat_str (minute d))
  ++ lit ":" ++ zfill 2 (nat_str (second d)).

(** *** The file system

    The files that exist, each under a name of its own (on a running
    system, the device and inode of the file); a file holds text. A
    regular file carries the permission to open it for writing. *)
Inductive node :=
| RegFile (writable : bool) (data : pystr)
| Directory.

(** What the operating system makes of a path as the program spells it,
    with the files that exist at that moment. [At name]: the spelling
    leads to the place [name], where a file exists or where a file may
    be created; every spelling of one file leads to the same place.
    [NoWay e]: the path is refused, with the exception [e] that [open]
    raises for it: a directory on the way is missing or is a regular
    file, the directory accepts no new entry, the spelling ends with a
    slash where no directory is, the name is too long, or it holds a NUL
    character, which the interpreter itself refuses with a
    [ValueError]. *)
Inductive located :=
| At (name : pystr)
| NoWay (e : pyexc).

(** *** Objects *)

Abbreviation addr := nat.

(** The two modes the logger opens its file with: ['a'] and ['w']. *)
Inductive file_mode := ModeA | ModeW.

(** A text file object: the name of the file it is open on, its mode,
    its position (in mode ['w']; in mode ['a'] every write goes to the
    end of the file), the [closed] flag and the text written but not yet
    flushed. *)
Record file_obj := {
  f_name : pystr;
  f_mode : file_mode;
  f_pos : nat;
  f_closed : bool;
  f_pending : pystr
}.

(** The attributes of a [SimpleLogger]: [self.fp] and
    [self._proxy_registry], a dict from channel names to proxies (in
    insertion order). *)
Record logger_obj := {
  lg_fp : addr;
  lg_proxy_registry : list (pystr * addr)
}.

(** The attributes of a [SimpleLoggerProxy]: [self.logger] and
    [self.channel]. *)
Record proxy_obj := {
  px_logger : addr;
  px_channel : pystr
}.

Inductive obj :=
| ObjFile (f : file_obj)
| ObjLogger (l : logger_obj)
| ObjProxy (p : proxy_obj).

(** The world: the objects, the files, the name resolution of the
    operating system (a function of the files that exist and of the
    path), whether a file that the process creates may be opened for
    writing again (it may not under a umask that takes the write
    permission of the owner away), and the clock. *)
Record world := {
  heap : gmap addr obj;
  fs : gmap pystr node;
  resolution : gmap pystr node -> pystr -> located;
  new_files_writable : bool;
  clock : datetime
}.

Definition set_heap (h : gmap addr obj) (w : world) : world :=
  {| heap := h; fs := fs w; resolution := resolution w;
     new_files_writable := new_files_writable w; clock := clock w |}.

Definition set_fs (t : gmap pystr node) (w : world) : world :=
  {| heap := heap w; fs := t; resolution := resolution w;
     new_files_writable := new_files_writable w; clock := clock w |}.

(** Where [path] leads in the world [w]. *)
Definition locate (w : world) (path : pystr) : located :=
  resolution w (fs w) path.

(** *** Computations: the world is threaded, an exception stops the
    computation and keeps the effects made so far. *)
Definition py (A : Type) : Type := world -> outcome A * world.

#[global] Instance py_ret : MRet py := fun A a w => (Ok a, w).

#[global] Instance py_bind : MBind py := fun A B k m w =>
  match m w with
  | (Ok a, w') => k a w'
  | (Raise e, w') => (Raise e, w')
  end.

Definition raise {A} (e : pyexc) : py A := fun w => (Raise e, w).

Definition lift {A} (o : outcome A) : py A := fun w => (o, w).

(** A new object gets an address no live object has. *)
Definition alloc (o : obj) : py addr := fun w =>
  let a := fresh (dom (heap w)) in
  (Ok a, set_heap (<[a := o]> (heap w)) w).

Definition store (a : addr) (o : obj) : py unit := fun w =>
  (Ok tt, set_heap (<[a := o]> (heap w)) w).

(** Reading an attribute of [self] that only a root logger, only a proxy
    or only a file object has. *)
Definition get_logger (self : addr) (attr : string) : py logger_obj := fun w =>
  match heap w !! self with
  | Some (ObjLogger l) => (Ok l, w)
  | _ => (Raise (AttributeError attr), w)
  end.

Definition get_proxy (self : addr) (attr : string) : py proxy_obj := fun w =>
  match heap w !! self with
  | Some (ObjProxy p) => (Ok p, w)
  | _ => (Raise (AttributeError attr), w)
  end.

Definition get_file (a : addr) (attr : string) : py file_obj := fun w =>
  match heap w !! a with
  | Some (ObjFile f) => (Ok f, w)
  | _ => (Raise (AttributeError attr), w)
  end.

Definition datetime_now : py datetime := fun w => (Ok (clock w), w).

(** *** Files *)

(** [os.path.exists(path)]: whether the path leads to a file that
    exists; a path that is refused does not exist. *)
Definition path_exists (w : world) (path : pystr) : bool :=
  match locate w path with
  | At name => bool_decide (is_Some (fs w !! name))
  | NoWay _ => false
  end.

Definition os_path_exists (path : pystr) : py bool := fun w =>
  (Ok (path_exists w path), w).

Definition new_file (name : pystr) (mode : file_mode) (pos : nat) : obj :=
  ObjFile {| f_name := name; f_mode := mode; f_pos := pos;
             f_closed := false; f_pending := [] |}.

(** [open(path, mode)] for the modes ['a'] and ['w']. A path that is
    refused raises. An existing regular file is opened if it may be
    written, and mode ['w'] empties it; where no file exists one is
    created, empty, and the new file object may write to it whatever its
    permissions are. *)
Definition open (path : pystr) (mode : file_mode) : py addr := fun w =>
  match locate w path with
  | NoWay e => (Raise e, w)
  | At name =>
      match fs w !! name with
      | Some Directory => (Raise (OSError IsADirectoryError), w)
      | Some (RegFile false _) => (Raise (OSError PermissionError), w)
      | Some (RegFile true data) =>
          match mode with
          | ModeA => alloc (new_file name ModeA (length data)) w
          | ModeW =>
              alloc (new_file name ModeW 0)
                    (set_fs (<[name := RegFile true []]> (fs w)) w)
          end
      | None =>
          alloc (new_file name mode 0)
                (set_fs (<[name := RegFile (new_files_writable w) []]> (fs w)) w)
      end
  end.

(** Writing [text] at position [pos] of [data]: over what is there, past
    the end if need be. *)
Definition pwrite (data : pystr) (pos : nat) (text : pystr) : pystr :=
  take pos data ++ repeat 0%N (pos - length data) ++ text
  ++ drop (pos + length text) data.

(** What the file of [f] holds once the pending text [f_pending f] has
    been handed to the operating system. *)
Definition flushed_data (f : file_obj) (data : pystr) : pystr :=
  match f_pending f with
  | [] => data
  | text =>
      match f_mode f with
      | ModeA => data ++ text
      | ModeW => pwrite data (f_pos f) text
      end
  end.

Definition flushed_pos (f : file_obj) (data : pystr) : nat :=
  match f_mode f with
  | ModeA => length (flushed_data f data)
  | ModeW => f_pos f + length (f_pending f)
  end.

(** The file object after its pending text went out; [closing] tells
    whether this is the flush of [close]. *)
Definition drained (f : file_obj) (pos : nat) (closing : bool) : obj :=
  ObjFile {| f_name := f_name f; f_mode := f_mode f; f_pos := pos;
             f_closed := closing || f_closed f; f_pending := [] |}.

Definition drain (a : addr) (f : file_obj) (closing : bool) : py unit := fun w =>
  match fs w !! f_name f with
  | Some (RegFile writable data) =>
      (Ok tt,
       {| heap := <[a := drained f (flushed_pos f data) closing]> (heap w);
          fs := <[f_name f := RegFile writable (flushed_data f data)]> (fs w);
          resolution := resolution w;
          new_files_writable := new_files_writable w;
          clock := clock w |})
  | _ =>
      (Ok tt,
       set_heap (<[a := drained f (f_pos f + length (f_pending f)) closing]>
                   (heap w)) w)
  end.

(** [fp.write(text)]: on an open file object the text is encoded, which
    fails on a character the encoding does not have, and joins what is
    pending. *)
Definition file_write `{UnicodeData} (a : addr) (text : pystr) : py unit :=
  f ← get_file a "write";
  if f_closed f then raise (ValueError "I/O operation on closed file.")
  else if forallb can_encode text
  then store a (ObjFile {| f_name := f_name f; f_mode := f_mode f;
                           f_pos := f_pos f; f_closed := false;
                           f_pending := f_pending f ++ text |})
  else raise UnicodeEncodeError.

(** [fp.flush()] *)
Definition file_flush (a : addr) : py unit :=
  f ← get_file a "flush";
  if f_closed f then raise (ValueError "I/O operation on closed file.")
  else drain a f false.

(** [fp.closed] and [fp.close()] *)
Definition file_closed (a : addr) : py bool :=
  f ← get_file a "closed"; mret (f_closed f).

Definition file_close (a : addr) : py unit :=
  f ← get_file a "close";
  if f_closed f then mret tt else drain a f true.

(** *** Dicts keyed by strings, in insertion order *)

Fixpoint dict_get {V} (k : pystr) (d : list (pystr * V)) : option V :=
  match d with
  | [] => None
  | (k', v) :: rest => if decide (k = k') then Some v else dict_get k rest
  end.

Fixpoint dict_set {V} (k : pystr) (v : V) (d : list (pystr * V)) : list (pystr * V) :=
  match d with
  | [] => [(k, v)]
  | (k', v') :: rest =>
      if decide (k = k') then (k', v) :: rest else (k', v') :: dict_set k v rest
  end.

Fixpoint dict_del {V} (k : pystr) (d : list (pystr * V)) : list (pystr * V) :=
  match d with
  | [] => []
  | (k', v) :: rest =>
      if decide (k = k') then rest else (k', v) :: dict_del k rest
  end.

(** ** The logger classes *)

Section Classes.
Context `{UnicodeData}.

(** Level constants of [SimpleLogger]. *)
Definition EMERGENCY : pystr := lit "EMERGENCY".
Definition ALERT : pystr := lit "ALERT".
Definition CRITICAL : pystr := lit "CRITICAL".
Definition ERROR : pystr := lit "ERROR".
Definition WARNING : pystr := lit "WARNING".
Definition NOTICE : pystr := lit "INFO".
Definition INFO : pystr := lit "INFO".
Definition DEBUG : pystr := lit "DEBUG".

Definition _DEFAULT_CHANNEL : pystr := lit "app".

(** Reads and writes of [self._proxy_registry[channel]]. *)
Definition registry_get (self : addr) (channel : pystr) : py addr :=
  l ← get_logger self "_proxy_registry";
  match dict_get channel (lg_proxy_registry l) with
  | Some p => mret p
  | None => raise (KeyError channel)
  end.

Definition registry_set (self : addr) (channel : pystr) (p : addr) : py unit :=
  l ← get_logger self "_proxy_registry";
  store self (ObjLogger {| lg_fp := lg_fp l;
                           lg_proxy_registry :=
                             dict_set channel p (lg_proxy_registry l) |}).

Definition registry_del (self : addr) (channel : pystr) : py unit :=
  l ← get_logger self "_proxy_registry";
  match dict_get channel (lg_proxy_registry l) with
  | Some _ =>
      store self (ObjLogger {| lg_fp := lg_fp l;
                               lg_proxy_registry :=
                                 dict_del channel (lg_proxy_registry l) |})
  | None => raise (KeyError channel)
  end.

(** [SimpleLoggerProxy.__init__]: the new proxy object with its two
    attributes; the parent constructor is not called, so a proxy has
    neither [fp] nor [_proxy_registry]. *)
Definition SimpleLoggerProxy___init__ (logger : addr) (channel : pystr) : py addr :=
  alloc (ObjProxy {| px_logger := logger; px_channel := channel |}).

(** [SimpleLoggerProxy.__del__] *)
Definition SimpleLoggerProxy___del__ (self : addr) : py unit := mret tt.

(** [SimpleLogger.fork] *)
Definition SimpleLogger_fork (self : addr) (channel : pystr) : py addr :=
  l ← get_logger self "_proxy_registry";
  match dict_get channel (lg_proxy_registry l) with
  | Some _ => registry_get self channel
  | None =>
      p ← SimpleLoggerProxy___init__ self channel;
      registry_set self channel p;;
      registry_get self channel
  end.

(** [SimpleLogger.__init__]. The object becomes visible to its caller
    only when the constructor returns, so it is entered in the heap once
    [open] has succeeded. *)
Definition SimpleLogger___init__ (filename : pystr) : py addr :=
  found ← os_path_exists filename;
  let mode := if found : bool then ModeA else ModeW in
  f ← open filename mode;
  self ← alloc (ObjLogger {| lg_fp := f; lg_proxy_registry := [] |});
  SimpleLogger_fork self _DEFAULT_CHANNEL;;
  mret self.

(** The loop [for k in self._proxy_registry: del self._proxy_registry[k]]
    of [SimpleLogger.__del__]. [keys] is what the iterator has left to
    yield and [used] the size of the dict when the iterator was made:
    each step of a dict iterator first compares the size of the dict with
    [used] and raises if they differ. *)
Fixpoint release_loop (self : addr) (used : nat) (keys : list pystr) {struct keys}
  : py unit :=
  l ← get_logger self "_proxy_registry";
  if decide (length (lg_proxy_registry l) = used) then
    match keys with
    | [] => mret tt
    | k :: rest => registry_del self k;; release_loop self used rest
    end
  else raise (RuntimeError "dictionary changed size during iteration").

(** [SimpleLogger.__del__] *)
Definition SimpleLogger___del__ (self : addr) : py unit :=
  l ← get_logger self "fp";
  is_closed ← file_closed (lg_fp l);
  (if negb is_closed then file_close (lg_fp l) else mret tt);;
  l ← get_logger self "_proxy_registry";
  release_loop self (length (lg_proxy_registry l))
               (map fst (lg_proxy_registry l)).

(** The value of the local variable [log_entry] of [SimpleLogger.write],
    from the arguments of the call and the clock: the two defaults and
    the formatted text. An omitted [context] or [extra] is [None]. The
    arguments of [format] are evaluated first, [json.dumps(context)]
    among them, and [extra] is converted while the text is built. *)
Definition log_entry (now : datetime) (channel level message : pystr)
    (context extra : pyval) : outcome pystr :=
  let context := if is_None context then PyList [] else context in
  let extra := if is_None extra then PyList [] else extra in
  outcome_bind (json_dumps context) (fun context_json =>
  outcome_bind (format_str extra) (fun extra_str =>
  Ok (lit "[" ++ strftime now ++ lit "] " ++ str_lower channel ++ lit "."
      ++ str_upper level ++ lit ": " ++ message ++ lit " " ++ context_json
      ++ lit " " ++ extra_str ++ [NEWLINE]))).

(** [SimpleLogger.write]: the entry is formatted, then [self.fp] is
    looked up, written to and flushed. *)
Definition SimpleLogger_write (self : addr) (channel level message : pystr)
    (context extra : pyval) : py unit :=
  now ← datetime_now;
  entry ← lift (log_entry now channel level message context extra);
  l ← get_logger self "fp";
  file_write (lg_fp l) entry;;
  file_flush (lg_fp l).

(** [SimpleLoggerProxy.fork] and [SimpleLoggerProxy.log]. [self.logger]
    is the root logger that made the proxy, so its [fork] is
    [SimpleLogger.fork]; [write] is not overridden anywhere. *)
Definition SimpleLoggerProxy_fork (self : addr) (channel : pystr) : py addr :=
  p ← get_proxy self "logger";
  SimpleLogger_fork (px_logger p) channel.

Definition SimpleLoggerProxy_log (self : addr) (level message : pystr)
    (context : pyval) : py unit :=
  p ← get_proxy self "logger";
  SimpleLogger_write (px_logger p) (px_channel p) level message context PyNone.

(** [SimpleLogger.log]. It runs for root loggers only (the proxy class
    overrides it), and [fork] returns a [SimpleLoggerProxy]. *)
Definition SimpleLogger_log (self : addr) (level message : pystr)
    (context : pyval) : py unit :=
  p ← SimpleLogger_fork self _DEFAULT_CHANNEL;
  SimpleLoggerProxy_log p level message context.

(** [self.log(...)] and [self.fork(...)], by the class of [self]. *)
Definition call_log (self : addr) (level message : pystr) (context : pyval)
  : py unit := fun w =>
  match heap w !! self with
  | Some (ObjProxy _) => SimpleLoggerProxy_log self level message context w
  | _ => SimpleLogger_log self level message context w
  end.

Definition call_fork (self : addr) (channel : pystr) : py addr := fun w =>
  match heap w !! self with
  | Some (ObjProxy _) => SimpleLoggerProxy_fork self channel w
  | _ => SimpleLogger_fork self channel w
  end.

(** The leveled methods of [SimpleLogger], inherited by the proxy. *)
Definition SimpleLogger_emergency (self : addr) (message : pystr) (context : pyval) :=
  call_log self EMERGENCY message context.
Definition SimpleLogger_alert (self : addr) (message : pystr) (context : pyval) :=
  call_log self ALERT message context.
Definition SimpleLogger_critical (self : addr) (message : pystr) (context : pyval) :=
  call_log self CRITICAL message context.
Definition SimpleLogger_error (self : addr) (message : pystr) (context : pyval) :=
  call_log self ERROR message context.
Definition SimpleLogger_warning (self : addr) (message : pystr) (context : pyval) :=
  call_log self WARNING message context.
Definition SimpleLogger_notice (self : addr) (message : pystr) (context : pyval) :=
  call_log self NOTICE message context.
Definition SimpleLogger_info (self : addr) (message : pystr) (context : pyval) :=
  call_log self INFO message context.
Definition SimpleLogger_debug (self : addr) (message : pystr) (context : pyval) :=
  call_log self DEBUG message context.

End Classes.

(** ** Vocabulary of the properties *)

(** The text of the regular file at [name], if there is one. *)
Definition file_text (w : world) (name : pystr) : option pystr :=
  match fs w !! name with
  | Some (RegFile _ data) => Some data
  | _ => None
  end.

(** The file object [f] writes at the end of [data]: always in append
    mode, and in mode ['w'] as long as its position is the length of the
    file. *)
Definition at_end (f : file_obj) (data : pystr) : Prop :=
  f_mode f = ModeA \/ f_pos f = length data.

(** [r] is a root logger with attributes [l], whose file object [f] is
    open with nothing pending, on a regular file that holds [data]. *)
Definition logger_ready (w : world) (r : addr) (l : logger_obj) (f : file_obj)
    (data : pystr) : Prop :=
  heap w !! r = Some (ObjLogger l) /\
  heap w !! lg_fp l = Some (ObjFile f) /\
  f_closed f = false /\
  f_pending f = [] /\
  (exists writable, fs w !! f_name f = Some (RegFile writable data)).

(** The registry of the root logger [r] holds, under the key [c], the
    proxy [q], and [q] is bound to [r] and [c]. *)
Definition registered (w : world) (r : addr) (c : pystr) (q : addr) : Prop :=
  exists l,
    heap w !! r = Some (ObjLogger l) /\
    dict_get c (lg_proxy_registry l) = Some q /\
    heap w !! q = Some (ObjProxy {| px_logger := r; px_channel := c |}).

(** The ranges of the fields of a moment of the clock. *)
Definition valid_datetime (d : datetime) : Prop :=
  (1000 <= year d <= 9999 /\ 1 <= month d <= 12 /\ 1 <= day d <= 31 /\
   hour d < 24 /\ minute d < 60 /\ second d < 60)%N.

Definition is_digit (c : N) : bool := ((48 <=? c) && (c <=? 57))%N.

(** [s] is [width] decimal digits. *)
Definition all_digits (width : nat) (s : pystr) : bool :=
  bool_decide (length s = width) && forallb is_digit s.

(** The shape [YYYY-MM-DD HH:MM:SS]. *)
Definition timestamp_shape (s : pystr) : bool :=
  match s with
  | [y1; y2; y3; y4; s1; m1; m2; s2; d1; d2; s3; h1; h2; s4; i1; i2; s5; e1; e2] =>
      forallb is_digit [y1; y2; y3; y4; m1; m2; d1; d2; h1; h2; i1; i2; e1; e2]
      && bool_decide ([s1; s2; s3; s4; s5] = lit "-- ::")
  | _ => false
  end.

(** The eight leveled methods, and the level each one passes to [log]. *)
Inductive leveled :=
| Emergency | Alert | Critical | Error | Warning | Notice | Info | Debug.

Definition call_leveled `{UnicodeData} (m : leveled)
  : addr -> pystr -> pyval -> py unit :=
  match m with
  | Emergency => SimpleLogger_emergency
  | Alert => SimpleLogger_alert
  | Critical => SimpleLogger_critical
  | Error => SimpleLogger_error
  | Warning => SimpleLogger_warning
  | Notice => SimpleLogger_notice
  | Info => SimpleLogger_info
  | Debug => SimpleLogger_debug
  end.

(** The mapping table of the specification, level by level. *)
Definition spec_level_tag (m : leveled) : pystr :=
  match m with
  | Emergency => lit "EMERGENCY"
  | Alert => lit "ALERT"
  | Critical => lit "CRITICAL"
  | Error => lit "ERROR"
  | Warning => lit "WARNING"
  | Notice => lit "INFO"
  | Info => lit "INFO"
  | Debug => lit "DEBUG"
  end.

(** Every entry of the registry of the root logger [r] is a proxy bound
    to [r] and to the key it is stored under. *)
Definition registry_bound (w : world) (r : addr) : Prop :=
  exists l,
    heap w !! r = Some (ObjLogger l) /\
    forall k q,
      dict_get k (lg_proxy_registry l) = Some q ->
      heap w !! q = Some (ObjProxy {| px_logger := r; px_channel := k |}).

(** The entry [write] formats, once the context is known to serialise
    as [j] and [extra] to convert to text. *)
Definition entry_text `{UnicodeData} (now : datetime)
    (channel level message j : pystr) (extra : pyval) : pystr :=
  lit "[" ++ strftime now ++ lit "] " ++ str_lower channel ++ lit "."
  ++ str_upper level ++ lit ": " ++ message ++ lit " " ++ j ++ lit " "
  ++ py_str (if is_None extra then PyList [] else extra) ++ [NEWLINE].

(** The constructor, once [open] has returned the file object [f] in the
    world [w1]: the logger object, then the proxy of ["app"]. *)
Definition constructed (f : addr) (w1 : world) : addr * world :=
  let r := fresh (dom (heap w1)) in
  let h := <[r := ObjLogger {| lg_fp := f; lg_proxy_registry := [] |}]> (heap w1) in
  let q := fresh (dom h) in
  (r, set_heap
        (<[r := ObjLogger {| lg_fp := f;
                             lg_proxy_registry := [(_DEFAULT_CHANNEL, q)] |}]>
           (<[q := ObjProxy {| px_logger := r; px_channel := _DEFAULT_CHANNEL |}]> h))
        w1).

(** ** Example worlds

    Used to run the classes on concrete inputs. *)

(** A CPython 3.11 with its default limit of 4300 digits and files
    encoded in UTF-8 (every code point but the surrogates), whose
    database knows nothing beyond ASCII, to run examples whose text is
    ASCII. *)
Definition ascii_only : UnicodeData :=
  {| ucd_lower := fun s => s; ucd_upper := fun s => s;
     ucd_isprintable := fun _ => false;
     int_max_str_digits := 4300;
     can_encode := fun c =>
       ((c <? 55296) || ((57343 <? c) && (c <=? 1114111)))%N |}.

Definition x_log : pystr := lit "/tmp/x.log".

(** The name resolution of a small POSIX system, for paths whose names
    have an ordinary length: the directories are the ones among the
    files, there are no links, a path that does not start with a slash
    starts in the directory [cwd], and [creatable] tells the directories
    that accept a new entry. A path is cut at its slashes; the names
    [.] and [..] stay and go up; every name but the last must be a
    directory; with a slash at its end the path must lead to a
    directory. *)
Fixpoint split_on (sep : N) (s : pystr) : list pystr :=
  match s with
  | [] => [[]]
  | c :: rest =>
      if (c =? sep)%N then [] :: split_on sep rest
      else
        match split_on sep rest with
        | [] => [[c]]
        | p :: ps => (c :: p) :: ps
        end
  end.

Definition nonempty (s : pystr) : bool :=
  match s with
  | [] => false
  | _ => true
  end.

(** The name of the file at the end of a list of directory entries. *)
Definition path_name (entries : list pystr) : pystr :=
  match entries with
  | [] => lit "/"
  | _ => flat_map (fun c => 47%N :: c) entries
  end.

Fixpoint walk (t : gmap pystr node) (creatable : list pystr -> bool)
    (trailing : bool) (cur names : list pystr) {struct names} : located :=
  match names with
  | [] => At (path_name cur)
  | c :: rest =>
      if bool_decide (c = lit ".") then walk t creatable trailing cur rest
      else if bool_decide (c = lit "..")
      then walk t creatable trailing (removelast cur) rest
      else
        match t !! path_name (cur ++ [c]), rest with
        | Some Directory, _ => walk t creatable trailing (cur ++ [c]) rest
        | Some (RegFile _ _), [] =>
            if trailing then NoWay (OSError IsADirectoryError)
            else At (path_name (cur ++ [c]))
        | Some (RegFile _ _), _ => NoWay (OSError NotADirectoryError)
        | None, [] =>
            if trailing then NoWay (OSError IsADirectoryError)
            else if creatable cur then At (path_name (cur ++ [c]))
            else NoWay (OSError PermissionError)
        | None, _ => NoWay (OSError FileNotFoundError)
        end
  end.

Definition posix_resolution (cwd : list pystr) (creatable : list pystr -> bool)
    (t : gmap pystr node) (path : pystr) : located :=
  if existsb (N.eqb 0) path then NoWay (ValueError "embedded null byte")
  else
    match path with
    | [] => NoWay (OSError FileNotFoundError)
    | c :: _ =>
        walk t creatable (bool_decide (last path = Some 47%N))
             (if (c =? 47)%N then [] else cwd)
             (List.filter nonempty (split_on 47 path))
    end.

(** A system with the directories [/], [/tmp] and [/srv], of which
    [/tmp] alone accepts new files; the process runs in [/tmp]. *)
Definition tmp_and_srv : gmap pystr node -> pystr -> located :=
  posix_resolution [lit "tmp"] (fun d => bool_decide (d = [lit "tmp"])).

(** No object yet, and no file in the directories. *)
Definition w0 : world :=
  {| heap := ∅;
     fs := <[lit "/" := Directory]>
             (<[lit "/srv" := Directory]> (<[lit "/tmp" := Directory]> ∅));
     resolution := tmp_and_srv;
     new_files_writable := true;
     clock := {| year := 2024; month := 3; day := 9;
                 hour := 7; minute := 5; second := 0;
                 in_range := eq_refl |}%N |}.

(** A root logger on the new file [/tmp/x.log]: the file object is at
    address 0, the logger at 1 and its proxy for ["app"] at 2. *)
Definition w_fresh : world := (SimpleLogger___init__ x_log w0).2.

(** A second root logger on the same path (file object 3, logger 4,
    proxy 5), which then logs one entry. *)
Definition w_second : world := (SimpleLogger___init__ x_log w_fresh).2.

Definition w_shared : world :=
  (SimpleLogger_write (H := ascii_only) 4 (lit "app") INFO (lit "hello world")
     PyNone PyNone w_second).2.

(** The file [/tmp/x.log] exists with one line. *)
Definition w_old : world :=
  set_fs (<[x_log := RegFile true (lit "first" ++ [NEWLINE])]> (fs w0)) w0.


(** The umask of the process takes the write permission away from the
    files it creates. *)
Definition w_umask : world :=
  {| heap := ∅; fs := fs w0; resolution := resolution w0;
     new_files_writable := false; clock := clock w0 |}.

(** The logger of [w_fresh] after [logger.fp.close()]. *)
Definition w_closed : world := (file_close 0 w_fresh).2.

(** The logger of [w_fresh] with a second channel. *)
Definition w_billing : world := (SimpleLogger_fork 1 (lit "billing") w_fresh).2.

(** ** Vocabulary of the properties of whole sessions *)

Definition set_clock (d : datetime) (w : world) : world :=
  {| heap := heap w; fs := fs w; resolution := resolution w;
     new_files_writable := new_files_writable w; clock := d |}.

(** [self] is the root logger [r] or a proxy bound to it. *)
Definition owned (w : world) (r self : addr) : Prop :=
  self = r \/
  exists c, heap w !! self = Some (ObjProxy {| px_logger := r; px_channel := c |}).

(** The root logger [r] serves the file [name], which holds [data]: its
    file object is open on [name] with nothing pending and writes at the
    end of the file, and its registry is bound. *)
Definition serving (w : world) (r : addr) (name data : pystr) : Prop :=
  exists l f,
    logger_ready w r l f data /\ at_end f data /\ f_name f = name /\
    registry_bound w r.

Definition is_ok {A} (o : outcome A) : bool :=
  match o with
  | Ok _ => true
  | Raise _ => false
  end.

(** The channel [log] writes under when it is called on [self]: the
    channel of a proxy, and ["app"] on a root logger. *)
Definition bound_channel (w : world) (self : addr) : pystr :=
  match heap w !! self with
  | Some (ObjProxy p) => px_channel p
  | _ => _DEFAULT_CHANNEL
  end.

(** What a logging call has put in the file: the entry it formatted
    when it returned, nothing when it raised. *)
Definition logged (o : outcome unit) (entry : outcome pystr) : list pystr :=
  match o, entry with
  | Ok _, Ok e => [e]
  | _, _ => []
  end.

(** A session of the root logger [r]: time passes, and the methods of
    [r] and of its proxies are called one after the other, each in the
    world the call before has left, whether it returned or raised.
    [session r w entries w'] collects in [entries], in the order of the
    calls, the entry of each call of [write], [log] and the leveled
    methods that returned: the text formatted from the arguments of that
    call and the clock at that call. *)
Inductive session `{UnicodeData} (r : addr) : world -> list pystr -> world -> Prop :=
| session_end w :
    session r w [] w
| session_tick w d n w' :
    session r (set_clock d w) n w' ->
    session r w n w'
| session_fork w self c o w1 n w' :
    owned w r self ->
    call_fork self c w = (o, w1) ->
    session r w1 n w' ->
    session r w n w'
| session_write w ch lv msg ctx ex o w1 n w' :
    SimpleLogger_write r ch lv msg ctx ex w = (o, w1) ->
    session r w1 n w' ->
    session r w (logged o (log_entry (clock w) ch lv msg ctx ex) ++ n) w'
| session_log w self lv msg ctx o w1 n w' :
    owned w r self ->
    call_log self lv msg ctx w = (o, w1) ->
    session r w1 n w' ->
    session r w
      (logged o (log_entry (clock w) (bound_channel w self) lv msg ctx PyNone)
       ++ n) w'
| session_leveled w m self msg ctx o w1 n w' :
    owned w r self ->
    call_leveled m self msg ctx w = (o, w1) ->
    session r w1 n w' ->
    session r w
      (logged o (log_entry (clock w) (bound_channel w self) (spec_level_tag m)
                   msg ctx PyNone)
       ++ n) w'.

(** The number of newlines of a text. *)
Definition newlines (s : pystr) : nat := count_occ N.eq_dec s NEWLINE.

(** The world after [n] calls of [__del__] on [r], whatever they
    returned. *)
Fixpoint after_teardowns (n : nat) (r : addr) (w : world) : world :=
  match n with
  | 0 => w
  | S n' => after_teardowns n' r (SimpleLogger___del__ r w).2
  end.

(** The printable ASCII characters, space to tilde. *)
Definition is_printable (c : N) : bool := ((32 <=? c) && (c <=? 126))%N.

Definition printable (s : pystr) : Prop := forallb is_printable s = true.

(** Two root loggers on the file of [w_old], both in append mode: file
    object 0, logger 1 and proxy 2, then file object 3, logger 4 and
    proxy 5; the second one was given another spelling of the path. *)
Definition w_pair : world :=
  (SimpleLogger___init__ (lit "/tmp//x.log")
     (SimpleLogger___init__ x_log w_old).2).2.

(** A session of the logger of [w_fresh]: [fork("billing")] through the
    proxy of ["app"], [critical] on the new proxy, [log] on the root
    logger a minute later, and a [write] whose context is a [set]. *)
Definition w_session1 : world := (call_fork 2 (lit "billing") w_fresh).2.

Definition w_session2 : world :=
  (call_leveled (H := ascii_only) Critical 3 (lit "payment failed")
     (PyDict [(PyStr (lit "order_id"), PyInt 42)]) w_session1).2.

Definition minute_later : datetime :=
  {| year := 2024; month := 3; day := 9;
     hour := 7; minute := 6; second := 0; in_range := eq_refl |}%N.

Definition w_session3 : world :=
  (call_log (H := ascii_only) 1 (lit "info") (lit "hello") PyNone
     (set_clock minute_later w_session2)).2.

Definition w_session4 : world :=
  (SimpleLogger_write (H := ascii_only) 1 (lit "app") (lit "info") (lit "lost")
     (PyObject "set" (lit "{1}")) PyNone w_session3).2.

(** ** Properties *)

Ltac py_unfold :=
  unfold mbind, py_bind, mret, py_ret, raise, lift, store, alloc,
    get_logger, get_proxy, get_file, datetime_now in *.

Lemma Ok_inj {A} (a b : A) : Ok a = Ok b -> a = b.
Proof. by intros [= ->]. Qed.

(** *** Dicts *)

Lemma dict_get_set_eq {V} (k : pystr) (v : V) d :
  dict_get k (dict_set k v d) = Some v.
Proof.
  induction d as [|[k' v'] d IH]; simpl.
  - by rewrite decide_True.
  - destruct (decide (k = k')) as [->|Hne]; simpl.
    + by rewrite decide_True.
    + by rewrite decide_False.
Qed.

Lemma dict_get_set_ne {V} (k k0 : pystr) (v : V) d :
  k0 ≠ k -> dict_get k0 (dict_set k v d) = dict_get k0 d.
Proof.
  intros Hne. induction d as [|[k' v'] d IH]; simpl.
  - by rewrite decide_False.
  - destruct (decide (k = k')) as [->|Hk]; simpl.
    + by rewrite !decide_False.
    + destruct (decide (k0 = k')); [done|apply IH].
Qed.

Lemma dict_set_absent {V} (k : pystr) (v : V) d :
  dict_get k d = None -> dict_set k v d = d ++ [(k, v)].
Proof.
  induction d as [|[k' v'] d IH]; simpl; [done|].
  destruct (decide (k = k')); [done|]. intros Hd. by rewrite IH.
Qed.

(** *** The heap *)

Lemma fresh_unused (h : gmap addr obj) : h !! fresh (dom h) = None.
Proof. apply not_elem_of_dom, is_fresh. Qed.

Lemma fresh_ne (h : gmap addr obj) (a : addr) (o : obj) :
  h !! a = Some o -> a ≠ fresh (dom h).
Proof. intros Ha ->. rewrite fresh_unused in Ha. discriminate. Qed.

(** An earlier object is still there after an allocation. *)
Lemma lookup_insert_fresh (h : gmap addr obj) (a : addr) (o x : obj) :
  h !! a = Some o -> <[fresh (dom h) := x]> h !! a = Some o.
Proof.
  intros Ha. rewrite lookup_insert_ne; [done|].
  intros E. by apply (fresh_ne h a o).
Qed.

Section Write.
Context `{UnicodeData}.

(** One call of [write] on a root logger, step by step. *)
Lemma write_run w r l f ch lv msg ctx ex :
  heap w !! r = Some (ObjLogger l) ->
  heap w !! lg_fp l = Some (ObjFile f) ->
  SimpleLogger_write r ch lv msg ctx ex w =
  match log_entry (clock w) ch lv msg ctx ex with
  | Raise e => (Raise e, w)
  | Ok entry =>
      if f_closed f
      then (Raise (ValueError "I/O operation on closed file."), w)
      else if forallb can_encode entry then
        let f' := {| f_name := f_name f; f_mode := f_mode f; f_pos := f_pos f;
                     f_closed := false; f_pending := f_pending f ++ entry |} in
        drain (lg_fp l) f' false
              (set_heap (<[lg_fp l := ObjFile f']> (heap w)) w)
      else (Raise UnicodeEncodeError, w)
  end.
Proof.
  intros Hr Hf. unfold SimpleLogger_write. py_unfold.
  destruct (log_entry _ _ _ _ _ _) as [entry|e]; [|done].
  rewrite Hr. unfold file_write, file_flush. py_unfold. rewrite Hf.
  destruct (f_closed f); [done|].
  destruct (forallb can_encode entry); [|done].
  simpl. by rewrite lookup_insert_eq.
Qed.

(** What a formatted entry is made of. *)
Lemma log_entry_ok now ch lv msg ctx ex entry :
  log_entry now ch lv msg ctx ex = Ok entry ->
  exists j,
    json_dumps (if is_None ctx then PyList [] else ctx) = Ok j /\
    has_long_int (if is_None ex then PyList [] else ex) = false /\
    entry = entry_text now ch lv msg j ex.
Proof.
  unfold log_entry, format_str.
  destruct (json_dumps _) as [j|e]; cbn [outcome_bind]; [|done].
  destruct (has_long_int _); cbn [outcome_bind]; [done|].
  intros <-%Ok_inj. by exists j.
Qed.

Lemma log_entry_text now ch lv msg ctx ex j :
  json_dumps (if is_None ctx then PyList [] else ctx) = Ok j ->
  has_long_int (if is_None ex then PyList [] else ex) = false ->
  log_entry now ch lv msg ctx ex = Ok (entry_text now ch lv msg j ex).
Proof.
  intros Hj Hx. unfold log_entry, format_str. rewrite Hj. cbn [outcome_bind].
  by rewrite Hx.
Qed.

Lemma log_entry_raises now ch lv msg ctx ex e :
  json_dumps (if is_None ctx then PyList [] else ctx) = Raise e ->
  log_entry now ch lv msg ctx ex = Raise e.
Proof. intros Hj. unfold log_entry. by rewrite Hj. Qed.

(** An entry is never empty: it starts with the bracket. *)
Lemma log_entry_cons now ch lv msg ctx ex entry :
  log_entry now ch lv msg ctx ex = Ok entry ->
  exists rest, entry = 91%N :: rest.
Proof.
  intros (j & _ & _ & ->)%log_entry_ok. eexists. reflexivity.
Qed.

(** A [write] that returns has formatted its entry, on an open file
    object that can encode it. *)
Lemma write_returns w w' r l f ch lv msg ctx ex :
  heap w !! r = Some (ObjLogger l) ->
  heap w !! lg_fp l = Some (ObjFile f) ->
  SimpleLogger_write r ch lv msg ctx ex w = (Ok tt, w') ->
  exists entry,
    log_entry (clock w) ch lv msg ctx ex = Ok entry /\
    forallb can_encode entry = true /\ f_closed f = false.
Proof.
  intros Hr Hf. rewrite (write_run w r l f) by done.
  destruct (log_entry _ _ _ _ _ _) as [entry|e]; [|done].
  destruct (f_closed f); [done|].
  destruct (forallb can_encode entry) eqn:Henc; [|done].
  intros _. by exists entry.
Qed.

(** On a ready logger whose file object writes at the end of the file,
    [write] with an entry that can be encoded leaves the file with the
    entry after what it held, and the file object flushed. *)
Lemma write_appends w r l f data ch lv msg ctx ex entry :
  logger_ready w r l f data -> at_end f data ->
  log_entry (clock w) ch lv msg ctx ex = Ok entry ->
  forallb can_encode entry = true ->
  exists w' f',
    SimpleLogger_write r ch lv msg ctx ex w = (Ok tt, w') /\
    file_text w' (f_name f) = Some (data ++ entry) /\
    (forall name, name ≠ f_name f -> fs w' !! name = fs w !! name) /\
    clock w' = clock w /\
    heap w' = <[lg_fp l := ObjFile f']> (heap w) /\
    f_name f' = f_name f /\ f_mode f' = f_mode f /\
    f_pos f' = length (data ++ entry) /\
    logger_ready w' r l f' (data ++ entry) /\ at_end f' (data ++ entry).
Proof.
  intros (Hr & Hf & Hopen & Hpend & wr & Hfs) Hend Hentry Henc.
  assert (Hne : r ≠ lg_fp l) by (intros E; rewrite E, Hf in Hr; discriminate).
  rewrite (write_run w r l f) by done. rewrite Hentry, Hopen, Henc, Hpend.
  clear Henc. destruct (log_entry_cons _ _ _ _ _ _ _ Hentry) as [rest ->].
  simpl.
  unfold drain; simpl. rewrite Hfs.
  assert (Hdata : flushed_data
            {| f_name := f_name f; f_mode := f_mode f; f_pos := f_pos f;
               f_closed := false; f_pending := 91%N :: rest |} data
          = data ++ 91%N :: rest).
  { unfold flushed_data; simpl. destruct Hend as [-> | Hpos]; [done|].
    destruct (f_mode f); [done|]. unfold pwrite. rewrite Hpos.
    rewrite take_ge, Nat.sub_diag, drop_ge by (simpl; lia). simpl.
    by rewrite app_nil_r. }
  assert (Hpos' : flushed_pos
            {| f_name := f_name f; f_mode := f_mode f; f_pos := f_pos f;
               f_closed := false; f_pending := 91%N :: rest |} data
          = length (data ++ 91%N :: rest)).
  { unfold flushed_pos. rewrite Hdata. simpl.
    destruct Hend as [-> | Hpos]; [done|].
    destruct (f_mode f); [done|]. rewrite Hpos, length_app. done. }
  rewrite Hdata, Hpos'. eexists _, _. split; [reflexivity|].
  unfold file_text; simpl. rewrite lookup_insert_eq, insert_insert_eq.
  repeat split; simpl; try done.
  - intros name Hname. by rewrite lookup_insert_ne.
  - by rewrite lookup_insert_ne.
  - by rewrite lookup_insert_eq.
  - eexists. by rewrite lookup_insert_eq.
  - destruct Hend as [Hm | _]; [by left | by right].
Qed.

(** The same, from the call that returned. *)
Lemma write_returned w w' r l f data ch lv msg ctx ex :
  logger_ready w r l f data -> at_end f data ->
  SimpleLogger_write r ch lv msg ctx ex w = (Ok tt, w') ->
  exists entry f',
    log_entry (clock w) ch lv msg ctx ex = Ok entry /\
    forallb can_encode entry = true /\
    file_text w' (f_name f) = Some (data ++ entry) /\
    (forall name, name ≠ f_name f -> fs w' !! name = fs w !! name) /\
    clock w' = clock w /\
    heap w' = <[lg_fp l := ObjFile f']> (heap w) /\
    f_name f' = f_name f /\ f_mode f' = f_mode f /\
    logger_ready w' r l f' (data ++ entry) /\ at_end f' (data ++ entry).
Proof.
  intros Hready Hend Hrun.
  pose proof Hready as (Hr & Hf & _).
  destruct (write_returns _ _ _ _ _ _ _ _ _ _ Hr Hf Hrun)
    as (entry & Hentry & Henc & _).
  destruct (write_appends _ _ _ _ _ _ _ _ _ _ _ Hready Hend Hentry Henc)
    as (w1 & f' & Hrun' & Htext & Hothers & Hclock & Hheap & Hname & Hmode & _
        & Hready' & Hend').
  rewrite Hrun in Hrun'. injection Hrun' as ->.
  by exists entry, f'.
Qed.

End Write.

(** *** The timestamp *)

Lemma datetime_valid (d : datetime) : valid_datetime d.
Proof.
  destruct d as [y mo dd h mi s Hr]. unfold valid_datetime. cbn.
  unfold clock_range in Hr.
  repeat (apply andb_prop in Hr as [Hr ?]).
  repeat match goal with
         | Hb : (_ <=? _)%N = true |- _ => apply N.leb_le in Hb
         | Hb : (_ <? _)%N = true |- _ => apply N.ltb_lt in Hb
         end.
  lia.
Qed.

Lemma digits_in_range (width : nat) (render : N -> pystr) (lo len : N) :
  forallb (fun n => all_digits width (render (N.of_nat n)))
          (seq (N.to_nat lo) (N.to_nat len)) = true ->
  forall n : N, (lo <= n < lo + len)%N -> all_digits width (render n) = true.
Proof.
  intros Hall n Hn. rewrite forallb_forall in Hall.
  specialize (Hall (N.to_nat n)). rewrite N2Nat.id in Hall.
  apply Hall, in_seq. lia.
Qed.

Lemma zfill2_digits (n : N) :
  (n < 100)%N -> all_digits 2 (zfill 2 (nat_str n)) = true.
Proof.
  intros Hn.
  apply (digits_in_range 2 (fun n => zfill 2 (nat_str n)) 0 100);
    [by vm_compute | lia].
Qed.

Lemma year_digits (n : N) :
  (1000 <= n <= 9999)%N -> all_digits 4 (nat_str n) = true.
Proof.
  intros Hn. apply (digits_in_range 4 nat_str 1000 9000); [by vm_compute | lia].
Qed.

Lemma all_digits_2 s :
  all_digits 2 s = true ->
  exists a b, s = [a; b] /\ is_digit a = true /\ is_digit b = true.
Proof.
  unfold all_digits. intros [Hlen Hd]%andb_prop.
  apply bool_decide_eq_true in Hlen.
  destruct s as [|a [|b [|? ?]]]; try discriminate.
  simpl in Hd. exists a, b.
  destruct (is_digit a), (is_digit b); try discriminate. done.
Qed.

Lemma all_digits_4 s :
  all_digits 4 s = true ->
  exists a b c d, s = [a; b; c; d] /\
    is_digit a = true /\ is_digit b = true /\
    is_digit c = true /\ is_digit d = true.
Proof.
  unfold all_digits. intros [Hlen Hd]%andb_prop.
  apply bool_decide_eq_true in Hlen.
  destruct s as [|a [|b [|c [|d [|? ?]]]]]; try discriminate.
  simpl in Hd. exists a, b, c, d.
  destruct (is_digit a), (is_digit b), (is_digit c), (is_digit d);
    try discriminate. done.
Qed.

(** Every moment of the clock prints in the shape
    [YYYY-MM-DD HH:MM:SS]. *)
Lemma strftime_shape (d : datetime) : timestamp_shape (strftime d) = true.
Proof.
  destruct (datetime_valid d) as (Hy & Hm & Hd & Hh & Hi & Hs). unfold strftime.
  destruct (all_digits_4 _ (year_digits (year d) ltac:(lia)))
    as (y1 & y2 & y3 & y4 & -> & ? & ? & ? & ?).
  destruct (all_digits_2 _ (zfill2_digits (month d) ltac:(lia)))
    as (m1 & m2 & -> & ? & ?).
  destruct (all_digits_2 _ (zfill2_digits (day d) ltac:(lia)))
    as (d1 & d2 & -> & ? & ?).
  destruct (all_digits_2 _ (zfill2_digits (hour d) ltac:(lia)))
    as (h1 & h2 & -> & ? & ?).
  destruct (all_digits_2 _ (zfill2_digits (minute d) ltac:(lia)))
    as (i1 & i2 & -> & ? & ?).
  destruct (all_digits_2 _ (zfill2_digits (second d) ltac:(lia)))
    as (e1 & e2 & -> & ? & ?).
  unfold lit. cbn -[is_digit]. repeat (rewrite andb_true_iff; split); try done.
Qed.

(** *** The lines of an entry *)

Lemma printable_app s t : printable (s ++ t) <-> printable s /\ printable t.
Proof. unfold printable. rewrite forallb_app. apply andb_true_iff. Qed.

Lemma printable_cons c s :
  printable (c :: s) <-> is_printable c = true /\ printable s.
Proof. unfold printable. simpl. apply andb_true_iff. Qed.

Lemma printable_no_newline s : printable s -> newlines s = 0.
Proof.
  unfold printable, newlines. induction s as [|c s IH]; [done|].
  simpl. intros [Hc Hs]%andb_prop.
  destruct (N.eq_dec c NEWLINE) as [->|_]; [discriminate|by apply IH].
Qed.

Lemma newlines_app s t : newlines (s ++ t) = newlines s + newlines t.
Proof. apply count_occ_app. Qed.

Lemma dec_digits_printable u : printable (dec_digits u).
Proof. induction u; simpl; try done; by apply printable_cons. Qed.

Lemma hex_digits_printable u : printable (hex_digits u).
Proof. induction u; simpl; try done; by apply printable_cons. Qed.

Lemma zfill_printable width s : printable s -> printable (zfill width s).
Proof.
  intros Hs. unfold zfill. apply printable_app. split; [|done].
  induction (width - length s) as [|n IH]; [done|]. by apply printable_cons.
Qed.

Lemma int_str_printable z : printable (int_str z).
Proof.
  unfold int_str. destruct (Z.to_int z); [apply dec_digits_printable|].
  apply printable_cons. split; [done|apply dec_digits_printable].
Qed.

Lemma hex_fill_printable width c : printable (hex_fill width c).
Proof. apply zfill_printable, hex_digits_printable. Qed.

Lemma json_escape_char_printable c : printable (json_escape_char c).
Proof.
  unfold json_escape_char.
  repeat (case_match; [done|]).
  case_match.
  { unfold printable. simpl. by rewrite andb_true_r. }
  case_match.
  - apply printable_cons. split; [done|]. apply printable_app.
    split; [done|apply hex_fill_printable].
  - apply printable_cons. split; [done|]. apply printable_app.
    split; [done|]. apply printable_app. split; [apply hex_fill_printable|].
    apply printable_cons. split; [done|]. apply printable_app.
    split; [done|apply hex_fill_printable].
Qed.

Lemma json_string_printable s : printable (json_string s).
Proof.
  unfold json_string. apply printable_cons. split; [done|].
  apply printable_app. split; [|done].
  induction s as [|c s IH]; [done|]. simpl. apply printable_app.
  split; [apply json_escape_char_printable|done].
Qed.

Lemma join_printable sep parts :
  printable sep -> Forall printable parts -> printable (join sep parts).
Proof.
  intros Hsep Hparts. induction Hparts as [|p parts Hp _ IH]; [done|].
  destruct parts as [|p' parts]; [done|].
  change (printable (p ++ sep ++ join sep (p' :: parts))).
  apply printable_app. split; [done|]. by apply printable_app.
Qed.

Lemma strftime_printable d : printable (strftime d).
Proof.
  unfold strftime, nat_str. rewrite !printable_app.
  repeat split;
    first [ apply zfill_printable, dec_digits_printable
          | apply dec_digits_printable
          | by vm_compute ].
Qed.

Section Lines.
Context `{UnicodeData}.

Lemma int_text_printable z s : int_text z = Ok s -> printable s.
Proof.
  unfold int_text. destruct (int_too_long z); [discriminate|].
  intros <-%Ok_inj. apply int_str_printable.
Qed.

Lemma json_key_printable k ks : json_key k = Ok ks -> printable ks.
Proof.
  destruct k as [|[|]|z|s| | | |]; cbn [json_key]; try discriminate;
    try (intros <-%Ok_inj; apply json_string_printable).
  destruct (int_text z) as [s|e]; cbn [outcome_bind]; [|discriminate].
  intros <-%Ok_inj. apply json_string_printable.
Qed.

(** [json.dumps] writes printable ASCII only, whatever the value. *)
Lemma json_dumps_printable : forall v j, json_dumps v = Ok j -> printable j.
Proof.
  fix IH 1. intros v j. destruct v as [|[|]|z|s|items|items|items|ty text];
    cbn [json_dumps].
  - by intros [= <-].
  - by intros [= <-].
  - by intros [= <-].
  - apply int_text_printable.
  - intros [= <-]. apply json_string_printable.
  - match goal with |- outcome_bind (?each items) _ = _ -> _ =>
      assert (Hparts : forall parts, each items = Ok parts -> Forall printable parts)
    end.
    { induction items as [|x items IHitems]; intros parts.
      - by intros [= <-].
      - destruct (json_dumps x) as [s|e] eqn:Hx; [|discriminate]. cbn [outcome_bind].
        match goal with |- outcome_bind ?o _ = _ -> _ =>
          destruct o as [ss|e] eqn:Hrest; [|discriminate] end.
        cbn [outcome_bind]. intros <-%Ok_inj. constructor; [by apply (IH x)|by apply IHitems]. }
    match goal with |- outcome_bind ?o _ = _ -> _ =>
      destruct o as [parts|e] eqn:Heach; [|discriminate] end.
    cbn [outcome_bind]. intros <-%Ok_inj. apply printable_app. split; [by vm_compute|].
    apply printable_app. split; [|by vm_compute]. apply join_printable; [by vm_compute|].
    by apply Hparts.
  - match goal with |- outcome_bind (?each items) _ = _ -> _ =>
      assert (Hparts : forall parts, each items = Ok parts -> Forall printable parts)
    end.
    { induction items as [|x items IHitems]; intros parts.
      - by intros [= <-].
      - destruct (json_dumps x) as [s|e] eqn:Hx; [|discriminate]. cbn [outcome_bind].
        match goal with |- outcome_bind ?o _ = _ -> _ =>
          destruct o as [ss|e] eqn:Hrest; [|discriminate] end.
        cbn [outcome_bind]. intros <-%Ok_inj. constructor; [by apply (IH x)|by apply IHitems]. }
    match goal with |- outcome_bind ?o _ = _ -> _ =>
      destruct o as [parts|e] eqn:Heach; [|discriminate] end.
    cbn [outcome_bind]. intros <-%Ok_inj. apply printable_app. split; [by vm_compute|].
    apply printable_app. split; [|by vm_compute]. apply join_printable; [by vm_compute|].
    by apply Hparts.
  - match goal with |- outcome_bind (?each items) _ = _ -> _ =>
      assert (Hparts : forall parts, each items = Ok parts -> Forall printable parts)
    end.
    { induction items as [|[k x] items IHitems]; intros parts.
      - by intros [= <-].
      - destruct (json_key k) as [ks|e] eqn:Hk; [|discriminate]. cbn [outcome_bind].
        destruct (json_dumps x) as [s|e] eqn:Hx; [|discriminate]. cbn [outcome_bind].
        match goal with |- outcome_bind ?o _ = _ -> _ =>
          destruct o as [ss|e] eqn:Hrest; [|discriminate] end.
        cbn [outcome_bind]. intros <-%Ok_inj. constructor; [|by apply IHitems].
        apply printable_app. split; [by apply (json_key_printable k)|].
        apply printable_app. split; [by vm_compute|by apply (IH x)]. }
    match goal with |- outcome_bind ?o _ = _ -> _ =>
      destruct o as [parts|e] eqn:Heach; [|discriminate] end.
    cbn [outcome_bind]. intros <-%Ok_inj. apply printable_app. split; [by vm_compute|].
    apply printable_app. split; [|by vm_compute]. apply join_printable; [by vm_compute|].
    by apply Hparts.
  - discriminate.
Qed.

(** The newlines of an entry are those of the channel, the level, the
    message and the extra, and the one that ends it. *)
Lemma entry_text_newlines now ch lv msg ctx ex j :
  json_dumps ctx = Ok j ->
  newlines (entry_text now ch lv msg j ex)
  = 1 + newlines (str_lower ch) + newlines (str_upper lv) + newlines msg
    + newlines (py_str (if is_None ex then PyList [] else ex)) /\
  last (entry_text now ch lv msg j ex) = Some NEWLINE.
Proof.
  intros Hj. unfold entry_text. split.
  - rewrite !newlines_app.
    rewrite (printable_no_newline _ (strftime_printable now)).
    rewrite (printable_no_newline j (json_dumps_printable _ _ Hj)).
    change (newlines (lit "[")) with 0. change (newlines (lit "] ")) with 0.
    change (newlines (lit ".")) with 0. change (newlines (lit ": ")) with 0.
    change (newlines (lit " ")) with 0. change (newlines [NEWLINE]) with 1.
    lia.
  - rewrite !app_assoc. apply last_snoc.
Qed.

End Lines.

(** *** One entry per call *)

(** C1, as stated, fails in two ways. A root logger that created its
    file (mode ['w']) writes at its own position: once a second root
    logger on the same path has appended an entry, a successful [write]
    of the first one lands on top of that entry, so the file does not
    grow and what it held is not kept. And the message is copied as it
    is: with a newline in the message, a successful [write] on a new
    file appends two lines. *)
Lemma write_overwrites_or_adds_two_lines :
  (exists w' data data',
      SimpleLogger_write (H := ascii_only) 1 (lit "app") INFO (lit "x")
        PyNone PyNone w_shared = (Ok tt, w') /\
      file_text w_shared x_log = Some data /\
      file_text w' x_log = Some data' /\
      length data' = length data /\
      ~ exists s, data' = data ++ s) /\
  (exists w' added,
      SimpleLogger_write (H := ascii_only) 1 (lit "app") INFO
        (lit "a" ++ [NEWLINE] ++ lit "b") PyNone PyNone w_fresh = (Ok tt, w') /\
      file_text w_fresh x_log = Some [] /\
      file_text w' x_log = Some added /\
      added = lit "[2024-03-09 07:05:00] app.INFO: a" ++ [NEWLINE]
              ++ lit "b [] []" ++ [NEWLINE] /\
      newlines added = 2).
Proof.
  split.
  - eexists _, _, _. split; [by vm_compute|].
    split; [by vm_compute|]. split; [by vm_compute|].
    split; [by vm_compute|].
    intros [s Hs]. vm_compute in Hs. discriminate Hs.
  - eexists _, _. split; [by vm_compute|].
    split; [by vm_compute|]. split; [by vm_compute|].
    split; by vm_compute.
Qed.

Section OneEntry.
Context `{UnicodeData}.

(** C1, amended: on a root logger whose file object is open with nothing
    pending and writes at the end of its file (it was opened in append
    mode, or it created the file and nothing else has extended it), every
    successful [write] appends exactly one entry
    [[<timestamp>] <channel lowercased>.<level uppercased>: <message>
    <context as JSON> <str(extra)>] followed by a newline, the message
    verbatim and the timestamp of the shape [YYYY-MM-DD HH:MM:SS]. The
    entry ends with its newline and holds one newline more than the
    lower-cased channel, the upper-cased level, the message and
    [str(extra)] hold together, so it is exactly one line when these
    hold none. The entry is flushed when the call returns: nothing is
    pending, the other files are as they were, and the logger is ready
    to append the next entry. *)
Theorem write_appends_one_entry w w' r l f data ch lv msg ctx ex :
  logger_ready w r l f data -> at_end f data ->
  SimpleLogger_write r ch lv msg ctx ex w = (Ok tt, w') ->
  exists ts j f',
    ts = strftime (clock w) /\
    timestamp_shape ts = true /\
    json_dumps (if is_None ctx then PyList [] else ctx) = Ok j /\
    let x := py_str (if is_None ex then PyList [] else ex) in
    let entry :=
      lit "[" ++ ts ++ lit "] " ++ str_lower ch ++ lit "." ++ str_upper lv
      ++ lit ": " ++ msg ++ lit " " ++ j ++ lit " " ++ x ++ [NEWLINE] in
    file_text w' (f_name f) = Some (data ++ entry) /\
    last entry = Some NEWLINE /\
    newlines entry
    = 1 + newlines (str_lower ch) + newlines (str_upper lv) + newlines msg
      + newlines x /\
    (newlines (str_lower ch) = 0 -> newlines (str_upper lv) = 0 ->
     newlines msg = 0 -> newlines x = 0 -> newlines entry = 1) /\
    (forall name, name ≠ f_name f -> fs w' !! name = fs w !! name) /\
    heap w' !! lg_fp l = Some (ObjFile f') /\ f_pending f' = [] /\
    logger_ready w' r l f' (data ++ entry) /\ at_end f' (data ++ entry).
Proof.
  intros Hready Hend Hrun.
  destruct (write_returned _ _ _ _ _ _ _ _ _ _ _ Hready Hend Hrun)
    as (entry & f' & Hentry & _ & Htext & Hothers & _ & _ & _ & _ & Hready' & Hend').
  destruct (log_entry_ok _ _ _ _ _ _ _ Hentry) as (j & Hj & _ & ->).
  destruct (entry_text_newlines (clock w) ch lv msg _ ex j Hj) as [Hcount Hlast].
  exists (strftime (clock w)), j, f'.
  split; [done|]. split; [apply strftime_shape|]. split; [done|].
  cbv zeta. fold (entry_text (clock w) ch lv msg j ex).
  split; [done|]. split; [done|]. split; [done|].
  split; [intros Hc Hl Hm Hx; rewrite Hcount, Hc, Hl, Hm, Hx; reflexivity|].
  split; [done|].
  destruct Hready' as (? & ? & ? & ? & ?). done.
Qed.

End OneEntry.

(** The scenario of the specification: a logger on the new file
    [/tmp/x.log], then [write] on channel ["app"] with level ["info"]
    and message ["hello"]. *)
Lemma write_appends_one_entry_witness :
  file_text
    (SimpleLogger_write (H := ascii_only) 1 (lit "App") (lit "info")
       (lit "hello") PyNone PyNone w_fresh).2 x_log
  = Some (lit "[2024-03-09 07:05:00] app.INFO: hello [] []" ++ [NEWLINE]) /\
  timestamp_shape (strftime (clock w_fresh)) = true /\
  newlines (lit "[2024-03-09 07:05:00] app.INFO: hello [] []" ++ [NEWLINE]) = 1.
Proof.
  destruct (write_appends_one_entry (H := ascii_only) w_fresh
              (SimpleLogger_write (H := ascii_only) 1 (lit "App") (lit "info")
                 (lit "hello") PyNone PyNone w_fresh).2
              1 {| lg_fp := 0; lg_proxy_registry := [(lit "app", 2)] |}
              {| f_name := x_log; f_mode := ModeW; f_pos := 0;
                 f_closed := false; f_pending := [] |}
              [] (lit "App") (lit "info") (lit "hello") PyNone PyNone)
    as (ts & j & f' & Hts & Hshape & Hj & Htext & _ & _ & Hone & _).
  - repeat split; try (vm_compute; reflexivity).
    exists true. vm_compute; reflexivity.
  - right. reflexivity.
  - vm_compute; reflexivity.
  - vm_compute in Hj. injection Hj as <-. subst ts.
    split; [exact Htext|]. split; [exact Hshape|].
    apply Hone; vm_compute; reflexivity.
Defined.

(** *** The registry *)

Lemma dict_get_head {V} (k : pystr) (v : V) d :
  dict_get k ((k, v) :: d) = Some v.
Proof. simpl. by rewrite decide_True. Qed.

Lemma dict_get_app_l {V} (k : pystr) (v : V) d e :
  dict_get k d = Some v -> dict_get k (d ++ e) = Some v.
Proof.
  induction d as [|[k' v'] d IH]; simpl; [done|].
  destruct (decide (k = k')); [done|apply IH].
Qed.

(** [fork] on a registered name: the proxy of the registry, and nothing
    changes. *)
Lemma fork_registered w r l c p :
  heap w !! r = Some (ObjLogger l) ->
  dict_get c (lg_proxy_registry l) = Some p ->
  SimpleLogger_fork r c w = (Ok p, w).
Proof.
  intros Hr Hc. unfold SimpleLogger_fork, registry_get. py_unfold.
  by rewrite Hr, Hc, Hr, Hc.
Qed.

(** [fork] on a new name: a new proxy object bound to the root logger
    and the name, entered last in the registry. *)
Lemma fork_new w r l c :
  heap w !! r = Some (ObjLogger l) ->
  dict_get c (lg_proxy_registry l) = None ->
  SimpleLogger_fork r c w =
    (Ok (fresh (dom (heap w))),
     set_heap
       (<[r := ObjLogger {| lg_fp := lg_fp l;
                            lg_proxy_registry :=
                              lg_proxy_registry l ++ [(c, fresh (dom (heap w)))] |}]>
          (<[fresh (dom (heap w)) :=
               ObjProxy {| px_logger := r; px_channel := c |}]> (heap w)))
       w).
Proof.
  intros Hr Hc.
  unfold SimpleLogger_fork, SimpleLoggerProxy___init__, registry_set, registry_get.
  py_unfold. rewrite Hr, Hc. simpl.
  rewrite lookup_insert_ne by (symmetry; by eapply fresh_ne).
  rewrite Hr. simpl. rewrite lookup_insert_eq. simpl.
  rewrite dict_get_set_eq. by rewrite dict_set_absent.
Qed.

(** C2: on a root logger [fork] never fails, and calling it again with
    the same name returns the same object and changes nothing. A name
    already in the registry yields the proxy stored under exactly that
    key; a new name yields an object that did not exist before, bound to
    this root logger and this name and stored under exactly this key.
    A [fork] of any other name in between does not change the answer. *)
Theorem fork_returns_same_proxy w r l c :
  heap w !! r = Some (ObjLogger l) ->
  exists p w1 l1,
    SimpleLogger_fork r c w = (Ok p, w1) /\
    SimpleLogger_fork r c w1 = (Ok p, w1) /\
    heap w1 !! r = Some (ObjLogger l1) /\
    dict_get c (lg_proxy_registry l1) = Some p /\
    match dict_get c (lg_proxy_registry l) with
    | Some q => p = q /\ w1 = w
    | None =>
        heap w !! p = None /\
        heap w1 !! p = Some (ObjProxy {| px_logger := r; px_channel := c |}) /\
        lg_proxy_registry l1 = lg_proxy_registry l ++ [(c, p)] /\
        lg_fp l1 = lg_fp l /\ fs w1 = fs w /\
        (forall a, a ≠ p -> a ≠ r -> heap w1 !! a = heap w !! a)
    end /\
    (forall c' p' w2,
        SimpleLogger_fork r c' w1 = (Ok p', w2) ->
        SimpleLogger_fork r c w2 = (Ok p, w2)).
Proof.
  intros Hr.
  assert (Hlater : forall w1 l1 p,
             heap w1 !! r = Some (ObjLogger l1) ->
             dict_get c (lg_proxy_registry l1) = Some p ->
             forall c' p' w2,
               SimpleLogger_fork r c' w1 = (Ok p', w2) ->
               SimpleLogger_fork r c w2 = (Ok p, w2)).
  { intros w1 l1 p Hr1 Hc1 c' p' w2.
    destruct (dict_get c' (lg_proxy_registry l1)) as [q|] eqn:Hc'.
    - rewrite (fork_registered w1 r l1 c' q) by done.
      intros [= _ <-]. by apply (fork_registered w1 r l1).
    - rewrite (fork_new w1 r l1 c') by done. intros [= _ <-].
      eapply fork_registered; simpl.
      + apply lookup_insert_eq.
      + simpl. by apply dict_get_app_l. }
  destruct (dict_get c (lg_proxy_registry l)) as [q|] eqn:Hc.
  - exists q, w, l. rewrite (fork_registered w r l c q) by done.
    repeat split; try done. by apply (Hlater w l).
  - pose proof (fork_new w r l c Hr Hc) as Hnew.
    set (p := fresh (dom (heap w))) in *.
    set (l1 := {| lg_fp := lg_fp l;
                  lg_proxy_registry := lg_proxy_registry l ++ [(c, p)] |}) in *.
    assert (Hp : r ≠ p) by (by eapply fresh_ne).
    assert (Hc1 : dict_get c (lg_proxy_registry l1) = Some p).
    { simpl. rewrite <- (dict_set_absent c p _ Hc). apply dict_get_set_eq. }
    eexists p, _, l1. split; [exact Hnew|].
    assert (Hr1 : heap (set_heap (<[r := ObjLogger l1]>
                   (<[p := ObjProxy {| px_logger := r; px_channel := c |}]>
                      (heap w))) w) !! r = Some (ObjLogger l1))
      by (simpl; apply lookup_insert_eq).
    split; [by apply (fork_registered _ r l1)|].
    split; [done|]. split; [done|]. split.
    + split; [apply fresh_unused|]. simpl.
      split; [by rewrite lookup_insert_ne, lookup_insert_eq|].
      repeat split; try done.
      intros a Hap Har. by rewrite !lookup_insert_ne.
    + by apply (Hlater _ l1).
Qed.

(** On the logger of [w_fresh] the name ["billing"] is new; ["App"] is
    not the registered ["app"] and gets a proxy of its own. *)
Lemma fork_returns_same_proxy_witness :
  (exists p w1,
      SimpleLogger_fork 1 (lit "billing") w_fresh = (Ok p, w1) /\
      SimpleLogger_fork 1 (lit "billing") w1 = (Ok p, w1)) /\
  (SimpleLogger_fork 1 (lit "app") w_fresh).1 = Ok 2 /\
  (SimpleLogger_fork 1 (lit "App") w_fresh).1 = Ok 3.
Proof.
  split; [|split; by vm_compute].
  destruct (fork_returns_same_proxy w_fresh 1
              {| lg_fp := 0; lg_proxy_registry := [(lit "app", 2)] |}
              (lit "billing"))
    as (p & w1 & l1 & H1 & H2 & _).
  - vm_compute; reflexivity.
  - exists p, w1. split; assumption.
Defined.

(** *** Forwarding *)

Section Forwarding.
Context `{UnicodeData}.

(** A successful [write] at the end of the file, in terms of the text
    of the file. *)
Lemma write_ok_text w w' r l f data ch lv msg ctx ex :
  logger_ready w r l f data -> at_end f data ->
  SimpleLogger_write r ch lv msg ctx ex w = (Ok tt, w') ->
  exists j,
    json_dumps (if is_None ctx then PyList [] else ctx) = Ok j /\
    file_text w' (f_name f)
    = Some (data ++ entry_text (clock w) ch lv msg j ex).
Proof.
  intros Hready Hend Hrun.
  destruct (write_returned _ _ _ _ _ _ _ _ _ _ _ Hready Hend Hrun)
    as (entry & f' & Hentry & _ & Htext & _).
  destruct (log_entry_ok _ _ _ _ _ _ _ Hentry) as (j & Hj & _ & ->).
  by exists j.
Qed.

Lemma proxy_log_run w p r c lv msg ctx :
  heap w !! p = Some (ObjProxy {| px_logger := r; px_channel := c |}) ->
  SimpleLoggerProxy_log p lv msg ctx w
  = SimpleLogger_write r c lv msg ctx PyNone w.
Proof. intros Hp. unfold SimpleLoggerProxy_log. py_unfold. by rewrite Hp. Qed.

Lemma proxy_call_log w p r c lv msg ctx :
  heap w !! p = Some (ObjProxy {| px_logger := r; px_channel := c |}) ->
  call_log p lv msg ctx w = SimpleLogger_write r c lv msg ctx PyNone w.
Proof.
  intros Hp. unfold call_log. rewrite Hp. by apply proxy_log_run.
Qed.

Lemma proxy_fork_run w p r c n :
  heap w !! p = Some (ObjProxy {| px_logger := r; px_channel := c |}) ->
  SimpleLoggerProxy_fork p n w = SimpleLogger_fork r n w.
Proof. intros Hp. unfold SimpleLoggerProxy_fork. py_unfold. by rewrite Hp. Qed.

(** [log] on a root logger whose registry is bound: the proxy of ["app"]
    is looked up, or made, and [write] runs with the channel ["app"]. *)
Lemma root_log_run w r lv msg ctx :
  registry_bound w r ->
  exists q w1,
    SimpleLogger_fork r _DEFAULT_CHANNEL w = (Ok q, w1) /\
    heap w1 !! q
    = Some (ObjProxy {| px_logger := r; px_channel := _DEFAULT_CHANNEL |}) /\
    SimpleLogger_log r lv msg ctx w
    = SimpleLogger_write r _DEFAULT_CHANNEL lv msg ctx PyNone w1.
Proof.
  intros (l & Hr & Hbound).
  destruct (dict_get _DEFAULT_CHANNEL (lg_proxy_registry l)) as [q|] eqn:Happ.
  - exists q, w. pose proof (fork_registered w r l _ q Hr Happ) as Hfork.
    split; [done|]. split; [by apply Hbound|].
    unfold SimpleLogger_log. unfold mbind at 1, py_bind. rewrite Hfork.
    apply proxy_log_run. by apply Hbound.
  - pose proof (fork_new w r l _ Hr Happ) as Hfork.
    eexists _, _. split; [exact Hfork|].
    assert (Hq : r ≠ fresh (dom (heap w))) by (by eapply fresh_ne).
    split; [simpl; by rewrite lookup_insert_ne, lookup_insert_eq|].
    unfold SimpleLogger_log. unfold mbind at 1, py_bind. rewrite Hfork.
    apply proxy_log_run. simpl. by rewrite lookup_insert_ne, lookup_insert_eq.
Qed.

(** The same when ["app"] is registered, as it is from construction
    on: the world is not touched before [write]. *)
Lemma root_log_registered w r q lv msg ctx :
  registered w r _DEFAULT_CHANNEL q ->
  SimpleLogger_log r lv msg ctx w
  = SimpleLogger_write r _DEFAULT_CHANNEL lv msg ctx PyNone w /\
  call_log r lv msg ctx w
  = SimpleLogger_write r _DEFAULT_CHANNEL lv msg ctx PyNone w.
Proof.
  intros (l & Hr & Happ & Hq).
  assert (Hlog : SimpleLogger_log r lv msg ctx w
                 = SimpleLogger_write r _DEFAULT_CHANNEL lv msg ctx PyNone w).
  { unfold SimpleLogger_log. unfold mbind at 1, py_bind.
    rewrite (fork_registered w r l _ q Hr Happ). by apply proxy_log_run. }
  split; [done|]. unfold call_log. by rewrite Hr.
Qed.

(** Each leveled method is [self.log] with the level of the table. *)
Lemma leveled_is_log (m : leveled) self msg ctx :
  call_leveled m self msg ctx = call_log self (spec_level_tag m) msg ctx.
Proof. by destruct m. Qed.

Lemma spec_level_tag_upper (m : leveled) :
  str_upper (spec_level_tag m) = spec_level_tag m.
Proof. by destruct m. Qed.

End Forwarding.

Section Channels.
Context `{UnicodeData}.

(** C3: a proxy bound to the root logger [r] and the channel [c]
    forwards [fork] to [r.fork], so the only registry is the one of the
    root, and its [log] is [r.write] with the channel [c] and no
    [extra]; when that call succeeds at the end of the file, the file
    has gained one entry tagged with the lower-cased [c]. *)
Theorem proxy_forwards_to_root w p r c :
  heap w !! p = Some (ObjProxy {| px_logger := r; px_channel := c |}) ->
  (forall n, SimpleLoggerProxy_fork p n w = SimpleLogger_fork r n w) /\
  (forall n, call_fork p n w = SimpleLogger_fork r n w) /\
  (forall lv msg ctx,
      SimpleLoggerProxy_log p lv msg ctx w
      = SimpleLogger_write r c lv msg ctx PyNone w) /\
  (forall lv msg ctx,
      call_log p lv msg ctx w = SimpleLogger_write r c lv msg ctx PyNone w) /\
  (forall l f data lv msg ctx w',
      logger_ready w r l f data -> at_end f data ->
      SimpleLoggerProxy_log p lv msg ctx w = (Ok tt, w') ->
      exists j,
        json_dumps (if is_None ctx then PyList [] else ctx) = Ok j /\
        file_text w' (f_name f)
        = Some (data ++ lit "[" ++ strftime (clock w) ++ lit "] "
                ++ str_lower c ++ lit "." ++ str_upper lv ++ lit ": " ++ msg
                ++ lit " " ++ j ++ lit " []" ++ [NEWLINE])).
Proof.
  intros Hp. split; [intros; by apply (proxy_fork_run w p r c)|].
  split.
  { intros n. unfold call_fork. rewrite Hp. by apply (proxy_fork_run w p r c). }
  split; [intros; by apply proxy_log_run|].
  split; [intros; by apply proxy_call_log|].
  intros l f data lv msg ctx w' Hready Hend Hrun.
  rewrite (proxy_log_run w p r c) in Hrun by done.
  destruct (write_ok_text _ _ _ _ _ _ _ _ _ _ _ Hready Hend Hrun)
    as (j & Hj & Htext).
  exists j. split; [done|]. rewrite Htext. reflexivity.
Qed.

(** C4: every leveled method passes the tag of the table to [log], and
    the tag is already upper case, so it is the tag of the entry that
    reaches the file. For a proxy the call is [write] on its root logger
    with that tag, for a root logger it is [write] with that tag on the
    channel ["app"]; when the call returns on a logger that writes at
    the end of its file, the file has gained one entry in which the tag
    of the table stands between the channel and the message. [notice]
    has the tag ["INFO"]. *)
Theorem leveled_methods_emit_table_tag (m : leveled) :
  str_upper (spec_level_tag m) = spec_level_tag m /\
  spec_level_tag Notice = lit "INFO" /\
  (forall w p r c msg ctx,
      heap w !! p = Some (ObjProxy {| px_logger := r; px_channel := c |}) ->
      call_leveled m p msg ctx w
      = SimpleLogger_write r c (spec_level_tag m) msg ctx PyNone w) /\
  (forall w r q msg ctx,
      registered w r (lit "app") q ->
      call_leveled m r msg ctx w
      = SimpleLogger_write r (lit "app") (spec_level_tag m) msg ctx PyNone w) /\
  (forall w w' p r c l f data msg ctx,
      heap w !! p = Some (ObjProxy {| px_logger := r; px_channel := c |}) ->
      logger_ready w r l f data -> at_end f data ->
      call_leveled m p msg ctx w = (Ok tt, w') ->
      exists j,
        json_dumps (if is_None ctx then PyList [] else ctx) = Ok j /\
        file_text w' (f_name f)
        = Some (data ++ lit "[" ++ strftime (clock w) ++ lit "] "
                ++ str_lower c ++ lit "." ++ spec_level_tag m ++ lit ": " ++ msg
                ++ lit " " ++ j ++ lit " []" ++ [NEWLINE])) /\
  (forall w w' r q l f data msg ctx,
      registered w r (lit "app") q ->
      logger_ready w r l f data -> at_end f data ->
      call_leveled m r msg ctx w = (Ok tt, w') ->
      exists j,
        json_dumps (if is_None ctx then PyList [] else ctx) = Ok j /\
        file_text w' (f_name f)
        = Some (data ++ lit "[" ++ strftime (clock w) ++ lit "] app."
                ++ spec_level_tag m ++ lit ": " ++ msg
                ++ lit " " ++ j ++ lit " []" ++ [NEWLINE])).
Proof.
  split; [apply spec_level_tag_upper|]. split; [done|].
  split. { intros. rewrite leveled_is_log. by apply proxy_call_log. }
  split.
  { intros w r q msg ctx Hreg. rewrite leveled_is_log.
    by apply (root_log_registered w r q). }
  split.
  - intros w w' p r c l f data msg ctx Hp Hready Hend Hrun.
    rewrite leveled_is_log, (proxy_call_log w p r c) in Hrun by done.
    destruct (write_ok_text _ _ _ _ _ _ _ _ _ _ _ Hready Hend Hrun)
      as (j & Hj & Htext).
    exists j. split; [done|]. rewrite Htext. unfold entry_text.
    rewrite spec_level_tag_upper. reflexivity.
  - intros w w' r q l f data msg ctx Hreg Hready Hend Hrun.
    rewrite leveled_is_log in Hrun.
    destruct (root_log_registered w r q (spec_level_tag m) msg ctx Hreg)
      as [_ Hcall].
    rewrite Hcall in Hrun.
    destruct (write_ok_text _ _ _ _ _ _ _ _ _ _ _ Hready Hend Hrun)
      as (j & Hj & Htext).
    exists j. split; [done|]. rewrite Htext. unfold entry_text.
    rewrite spec_level_tag_upper. reflexivity.
Qed.

End Channels.

(** In [w_fresh] object 2 is the proxy of logger 1 for ["app"]; its
    [log] writes through the file object of the logger. *)
Lemma proxy_forwards_to_root_witness :
  SimpleLoggerProxy_fork 2 (lit "billing") w_fresh
  = SimpleLogger_fork 1 (lit "billing") w_fresh /\
  file_text
    (SimpleLoggerProxy_log (H := ascii_only) 2 (lit "debug") (lit "m")
       (PyDict []) w_fresh).2 x_log
  = Some (lit "[2024-03-09 07:05:00] app.DEBUG: m {} []" ++ [NEWLINE]).
Proof.
  destruct (proxy_forwards_to_root (H := ascii_only) w_fresh 2 1 (lit "app"))
    as (Hfork & _ & Hlog & _ & Hline).
  - vm_compute; reflexivity.
  - split; [apply Hfork|].
    destruct (Hline {| lg_fp := 0; lg_proxy_registry := [(lit "app", 2)] |}
                {| f_name := x_log; f_mode := ModeW; f_pos := 0;
                   f_closed := false; f_pending := [] |}
                [] (lit "debug") (lit "m") (PyDict [])
                (SimpleLoggerProxy_log (H := ascii_only) 2 (lit "debug")
                   (lit "m") (PyDict []) w_fresh).2)
      as (j & Hj & Htext).
    + repeat split; try (vm_compute; reflexivity).
      exists true. vm_compute; reflexivity.
    + right; reflexivity.
    + vm_compute; reflexivity.
    + simpl in Hj. injection Hj as <-. exact Htext.
Defined.

(** [notice] on the logger of [w_fresh] and [critical] on its proxy for
    ["app"]: the line in the file carries ["INFO"] and ["CRITICAL"]. *)
Lemma leveled_methods_emit_table_tag_witness :
  file_text
    (call_leveled (H := ascii_only) Notice 1 (lit "n") PyNone w_fresh).2 x_log
  = Some (lit "[2024-03-09 07:05:00] app.INFO: n [] []" ++ [NEWLINE]) /\
  file_text
    (call_leveled (H := ascii_only) Critical 2 (lit "c") PyNone w_fresh).2 x_log
  = Some (lit "[2024-03-09 07:05:00] app.CRITICAL: c [] []" ++ [NEWLINE]).
Proof.
  split.
  - destruct (leveled_methods_emit_table_tag (H := ascii_only) Notice)
      as (_ & _ & _ & _ & _ & Hroot).
    destruct (Hroot w_fresh
                (call_leveled (H := ascii_only) Notice 1 (lit "n") PyNone
                   w_fresh).2
                1 2 {| lg_fp := 0; lg_proxy_registry := [(lit "app", 2)] |}
                {| f_name := x_log; f_mode := ModeW; f_pos := 0;
                   f_closed := false; f_pending := [] |}
                [] (lit "n") PyNone)
      as (j & Hj & Htext).
    + exists {| lg_fp := 0; lg_proxy_registry := [(lit "app", 2)] |}.
      repeat split; vm_compute; reflexivity.
    + repeat split; try (vm_compute; reflexivity).
      exists true. vm_compute; reflexivity.
    + right; reflexivity.
    + vm_compute; reflexivity.
    + vm_compute in Hj. injection Hj as <-. exact Htext.
  - destruct (leveled_methods_emit_table_tag (H := ascii_only) Critical)
      as (_ & _ & _ & _ & Hproxy & _).
    destruct (Hproxy w_fresh
                (call_leveled (H := ascii_only) Critical 2 (lit "c") PyNone
                   w_fresh).2
                2 1 (lit "app")
                {| lg_fp := 0; lg_proxy_registry := [(lit "app", 2)] |}
                {| f_name := x_log; f_mode := ModeW; f_pos := 0;
                   f_closed := false; f_pending := [] |}
                [] (lit "c") PyNone)
      as (j & Hj & Htext).
    + vm_compute; reflexivity.
    + repeat split; try (vm_compute; reflexivity).
      exists true. vm_compute; reflexivity.
    + right; reflexivity.
    + vm_compute; reflexivity.
    + vm_compute in Hj. injection Hj as <-. exact Htext.
Defined.

(** *** The registry stays bound

    [registry_bound] holds from construction on ([constructed_bound]
    below) and is kept by [fork] and by [write]. *)

Lemma dict_get_snoc {V} (k c : pystr) (p : V) d :
  dict_get k (d ++ [(c, p)])
  = match dict_get k d with
    | Some q => Some q
    | None => if decide (k = c) then Some p else None
    end.
Proof.
  induction d as [|[k' v'] d IH]; simpl; [done|].
  destruct (decide (k = k')); [done|apply IH].
Qed.

Lemma fork_keeps_bound w r c p w1 :
  registry_bound w r ->
  SimpleLogger_fork r c w = (Ok p, w1) ->
  registry_bound w1 r.
Proof.
  intros (l & Hr & Hbound) Hfork.
  destruct (dict_get c (lg_proxy_registry l)) as [q|] eqn:Hc.
  - rewrite (fork_registered w r l c q) in Hfork by done.
    injection Hfork as _ <-. by exists l.
  - rewrite (fork_new w r l c) in Hfork by done. injection Hfork as <- <-.
    eexists. split; [simpl; apply lookup_insert_eq|].
    intros k q. cbn [lg_proxy_registry]. rewrite dict_get_snoc. simpl.
    assert (Hfresh : r ≠ fresh (dom (heap w))) by (by eapply fresh_ne).
    destruct (dict_get k (lg_proxy_registry l)) as [q'|] eqn:Hk.
    + intros [= <-]. pose proof (Hbound k q' Hk) as Hq.
      rewrite lookup_insert_ne by (intros E; rewrite E, Hq in Hr; discriminate).
      by apply lookup_insert_fresh.
    + destruct (decide (k = c)) as [->|]; [|done]. intros [= <-].
      by rewrite lookup_insert_ne, lookup_insert_eq.
Qed.

Section Frame.
Context `{UnicodeData}.

(** [write] touches no object but the file object of the logger. *)
Lemma write_frame w r l f ch lv msg ctx ex o w' :
  heap w !! r = Some (ObjLogger l) ->
  heap w !! lg_fp l = Some (ObjFile f) ->
  SimpleLogger_write r ch lv msg ctx ex w = (o, w') ->
  forall a, a ≠ lg_fp l -> heap w' !! a = heap w !! a.
Proof.
  intros Hr Hf Hrun a Ha. rewrite (write_run w r l f) in Hrun by done.
  destruct (log_entry _ _ _ _ _ _) as [entry|e];
    [|by injection Hrun as _ <-].
  destruct (f_closed f); [by injection Hrun as _ <-|].
  destruct (forallb can_encode entry); [|by injection Hrun as _ <-].
  unfold drain in Hrun. cbn [f_name fs set_heap heap] in Hrun.
  destruct (fs w !! f_name f) as [[writable data|]|];
    injection Hrun as _ <-; cbn [heap set_heap];
    by rewrite !lookup_insert_ne.
Qed.

Lemma write_keeps_bound w r l f ch lv msg ctx ex o w' :
  heap w !! r = Some (ObjLogger l) ->
  heap w !! lg_fp l = Some (ObjFile f) ->
  registry_bound w r ->
  SimpleLogger_write r ch lv msg ctx ex w = (o, w') ->
  registry_bound w' r.
Proof.
  intros Hr Hf (l' & Hr' & Hbound) Hrun.
  pose proof (write_frame _ _ _ _ _ _ _ _ _ _ _ Hr Hf Hrun) as Hframe.
  exists l'. split.
  - rewrite Hframe; [done|]. intros E. rewrite E, Hf in Hr. discriminate.
  - intros k q Hk. pose proof (Hbound k q Hk) as Hq.
    rewrite Hframe; [done|]. intros E. rewrite E, Hf in Hq. discriminate.
Qed.

End Frame.

(** *** Construction *)

Lemma init_run path w :
  SimpleLogger___init__ path w =
  match open path (if path_exists w path then ModeA else ModeW) w with
  | (Ok f, w1) => (Ok (constructed f w1).1, (constructed f w1).2)
  | (Raise e, w1) => (Raise e, w1)
  end.
Proof.
  unfold SimpleLogger___init__, os_path_exists.
  unfold mbind at 1 2, py_bind.
  destruct (open _ _ w) as [[f|e] w1]; [|done].
  unfold mbind at 1, py_bind, alloc.
  unfold mbind, py_bind.
  rewrite (fork_new _ _ {| lg_fp := f; lg_proxy_registry := [] |});
    [reflexivity | simpl; apply lookup_insert_eq | reflexivity].
Qed.

Lemma constructed_registered f w1 :
  registered (constructed f w1).2 (constructed f w1).1 _DEFAULT_CHANNEL
    (fresh (dom (<[fresh (dom (heap w1)) :=
                     ObjLogger {| lg_fp := f; lg_proxy_registry := [] |}]>
                   (heap w1)))).
Proof.
  eexists. split; [simpl; apply lookup_insert_eq|].
  split; [apply dict_get_head|]. simpl.
  rewrite lookup_insert_ne, lookup_insert_eq; [done|].
  eapply fresh_ne. apply lookup_insert_eq.
Qed.

Lemma constructed_bound f w1 :
  registry_bound (constructed f w1).2 (constructed f w1).1.
Proof.
  destruct (constructed_registered f w1) as (l & Hr & Hq & Hp).
  exists l. split; [done|]. intros k q Hk.
  simpl in Hr. rewrite lookup_insert_eq in Hr. injection Hr as <-.
  clear Hq. cbn [lg_proxy_registry dict_get] in Hk.
  destruct (decide (k = _DEFAULT_CHANNEL)) as [->|]; [|done].
  by injection Hk as <-.
Qed.

(** [open] in the two situations the constructor meets with success. *)
Lemma open_append path name data w :
  locate w path = At name ->
  fs w !! name = Some (RegFile true data) ->
  open path ModeA w
  = (Ok (fresh (dom (heap w))),
     set_heap (<[fresh (dom (heap w)) := new_file name ModeA (length data)]>
                 (heap w)) w).
Proof. intros Hl Hp. unfold open. by rewrite Hl, Hp. Qed.

Lemma open_create path name mode w :
  locate w path = At name ->
  fs w !! name = None ->
  open path mode w
  = (Ok (fresh (dom (heap w))),
     set_heap (<[fresh (dom (heap w)) := new_file name mode 0]> (heap w))
              (set_fs (<[name := RegFile (new_files_writable w) []]> (fs w)) w)).
Proof. intros Hl Hp. unfold open. by rewrite Hl, Hp. Qed.

(** A logger right after a successful [open] that left the file object
    [f], at the end of the text [data], is ready. *)
Lemma constructed_ready path mode pos data writable w1 h t :
  w1 = set_heap (<[fresh (dom h) := new_file path mode pos]> h) t ->
  fs t !! path = Some (RegFile writable data) ->
  let f := fresh (dom h) in
  logger_ready (constructed f w1).2 (constructed f w1).1
    {| lg_fp := f;
       lg_proxy_registry :=
         [(_DEFAULT_CHANNEL,
           fresh (dom (<[fresh (dom (heap w1)) :=
                           ObjLogger {| lg_fp := f; lg_proxy_registry := [] |}]>
                         (heap w1))))] |}
    {| f_name := path; f_mode := mode; f_pos := pos;
       f_closed := false; f_pending := [] |}
    data.
Proof.
  intros -> Hfs f. unfold logger_ready. simpl.
  split; [apply lookup_insert_eq|]. split.
  - set (r := fresh (dom (<[f := new_file path mode pos]> h))).
    assert (Hfr : r ≠ f).
    { intros E. symmetry in E. revert E. eapply fresh_ne. apply lookup_insert_eq. }
    rewrite lookup_insert_ne by done.
    do 2 apply lookup_insert_fresh. apply lookup_insert_eq.
  - repeat split; eauto.
Qed.

Lemma path_exists_true w path name x :
  locate w path = At name -> fs w !! name = Some x -> path_exists w path = true.
Proof.
  intros Hl Hp. unfold path_exists. rewrite Hl.
  apply bool_decide_eq_true. by rewrite Hp.
Qed.

Lemma path_exists_false w path name :
  locate w path = At name -> fs w !! name = None -> path_exists w path = false.
Proof.
  intros Hl Hp. unfold path_exists. rewrite Hl.
  apply bool_decide_eq_false. rewrite Hp. by intros [? ?].
Qed.

Lemma init_existing path name data w :
  locate w path = At name ->
  fs w !! name = Some (RegFile true data) ->
  SimpleLogger___init__ path w
  = (let w1 := set_heap (<[fresh (dom (heap w)) :=
                             new_file name ModeA (length data)]> (heap w)) w in
     (Ok (constructed (fresh (dom (heap w))) w1).1,
      (constructed (fresh (dom (heap w))) w1).2)).
Proof.
  intros Hl Hp. rewrite init_run.
  rewrite (path_exists_true w path name _ Hl Hp).
  by rewrite (open_append path name data).
Qed.

Lemma init_missing path name w :
  locate w path = At name ->
  fs w !! name = None ->
  SimpleLogger___init__ path w
  = (let w1 := set_heap (<[fresh (dom (heap w)) := new_file name ModeW 0]>
                           (heap w))
                 (set_fs (<[name := RegFile (new_files_writable w) []]> (fs w))
                         w) in
     (Ok (constructed (fresh (dom (heap w))) w1).1,
      (constructed (fresh (dom (heap w))) w1).2)).
Proof.
  intros Hl Hp. rewrite init_run.
  rewrite (path_exists_false w path name Hl Hp).
  by rewrite (open_create path name ModeW).
Qed.

(** The constructor passes on what [open] raises, and nothing has
    changed then. *)
Lemma init_refused path w e :
  locate w path = NoWay e ->
  SimpleLogger___init__ path w = (Raise e, w).
Proof. intros Hl. rewrite init_run. unfold open. by rewrite Hl. Qed.

Lemma init_unwritable path name data w :
  locate w path = At name ->
  fs w !! name = Some (RegFile false data) ->
  SimpleLogger___init__ path w = (Raise (OSError PermissionError), w).
Proof. intros Hl Hp. rewrite init_run. unfold open. by rewrite Hl, Hp. Qed.

Lemma init_directory path name w :
  locate w path = At name ->
  fs w !! name = Some Directory ->
  SimpleLogger___init__ path w = (Raise (OSError IsADirectoryError), w).
Proof. intros Hl Hp. rewrite init_run. unfold open. by rewrite Hl, Hp. Qed.

Section Construction.
Context `{UnicodeData}.

(** C6: a constructor that returns leaves a root logger whose registry
    holds exactly the channel ["app"], with a proxy bound to the logger
    and to ["app"]. [log] on a root logger looks that proxy up (or makes
    it, should the entry be gone) and is [write] with the channel
    ["app"]; with ["app"] registered, as after construction, nothing
    else happens, and every leveled method of the root logger is
    [write] on ["app"] with its tag. *)
Theorem default_channel_is_app :
  (forall path w r w1,
      SimpleLogger___init__ path w = (Ok r, w1) ->
      exists q l,
        heap w1 !! r = Some (ObjLogger l) /\
        lg_proxy_registry l = [(lit "app", q)] /\
        registered w1 r (lit "app") q /\
        registry_bound w1 r) /\
  (forall w r lv msg ctx,
      registry_bound w r ->
      exists q w1,
        SimpleLogger_fork r (lit "app") w = (Ok q, w1) /\
        SimpleLogger_log r lv msg ctx w
        = SimpleLogger_write r (lit "app") lv msg ctx PyNone w1 /\
        call_log r lv msg ctx w
        = SimpleLogger_write r (lit "app") lv msg ctx PyNone w1) /\
  (forall w r q lv msg ctx,
      registered w r (lit "app") q ->
      SimpleLogger_log r lv msg ctx w
      = SimpleLogger_write r (lit "app") lv msg ctx PyNone w /\
      call_log r lv msg ctx w
      = SimpleLogger_write r (lit "app") lv msg ctx PyNone w /\
      forall m,
        call_leveled m r msg ctx w
        = SimpleLogger_write r (lit "app") (spec_level_tag m) msg ctx PyNone w).
Proof.
  split; [|split].
  - intros path w r w1. rewrite init_run.
    destruct (open _ _ w) as [[f|e] w0']; [|done].
    intros [= <- <-].
    pose proof (constructed_registered f w0') as Hreg.
    destruct Hreg as (l & Hr & Hq & Hp).
    eexists _, l. split; [exact Hr|].
    simpl in Hr. rewrite lookup_insert_eq in Hr. injection Hr as <-.
    split; [reflexivity|]. split.
    + apply constructed_registered.
    + apply constructed_bound.
  - intros w r lv msg ctx Hbound.
    destruct (root_log_run w r lv msg ctx Hbound) as (q & w1 & Hfork & _ & Hlog).
    exists q, w1. split; [done|]. split; [done|].
    destruct Hbound as (l & Hr & _). unfold call_log. by rewrite Hr.
  - intros w r q lv msg ctx Hreg.
    destruct (root_log_registered w r q lv msg ctx Hreg) as [Hlog Hcall].
    split; [done|]. split; [done|].
    intros m. rewrite leveled_is_log.
    by apply (root_log_registered w r q).
Qed.


End Construction.

(** The logger of [w0] has ["app"] from construction, and its [log] is
    [write] on ["app"]. *)
Lemma default_channel_is_app_witness :
  (exists q, registered w_fresh 1 (lit "app") q) /\
  SimpleLogger_log (H := ascii_only) 1 (lit "info") (lit "m") PyNone w_fresh
  = SimpleLogger_write (H := ascii_only) 1 (lit "app") (lit "info") (lit "m")
      PyNone PyNone w_fresh.
Proof.
  destruct (default_channel_is_app (H := ascii_only)) as (Hinit & _ & Hlog).
  destruct (Hinit x_log w0 1 w_fresh) as (q & l & _ & _ & Hreg & _).
  - vm_compute; reflexivity.
  - split; [by exists q|].
    by destruct (Hlog w_fresh 1 q (lit "info") (lit "m") PyNone Hreg) as [-> _].
Defined.


(** *** Errors *)

(** C8, as stated, fails: a [write] after [logger.fp.close()] raises
    the [ValueError] of the closed file object, which is not an I/O
    error ([OSError]); the world is as before the call. *)
Lemma closed_file_error_is_no_io_error :
  exists e,
    SimpleLogger_write (H := ascii_only) 1 (lit "app") (lit "info") (lit "m")
      PyNone PyNone w_closed = (Raise e, w_closed) /\
    e = ValueError "I/O operation on closed file." /\
    is_OSError e = false.
Proof.
  exists (ValueError "I/O operation on closed file.").
  split; [vm_compute; reflexivity|]. by split.
Qed.

Section Errors.
Context `{UnicodeData}.

(** C8, amended: [write] has no handler. On a root logger, whatever is
    raised while the entry is formatted comes out of [write] as it is
    and the world is as before the call; this is so for the error of
    [json.dumps] on a context that does not serialise, which also comes
    out unchanged of [log] and of the leveled methods of a proxy and of
    the root logger. When the file object is closed and the entry can be
    formatted, [write] raises the [ValueError] of [fp.write] on a closed
    file, which is not an [OSError], again with the world as before the
    call, and [log] and the leveled methods pass it on. *)
Theorem write_errors_propagate w r l f p c :
  heap w !! r = Some (ObjLogger l) ->
  heap w !! lg_fp l = Some (ObjFile f) ->
  heap w !! p = Some (ObjProxy {| px_logger := r; px_channel := c |}) ->
  (forall ch lv msg ctx ex e,
      log_entry (clock w) ch lv msg ctx ex = Raise e ->
      SimpleLogger_write r ch lv msg ctx ex w = (Raise e, w)) /\
  (forall ctx e,
      json_dumps (if is_None ctx then PyList [] else ctx) = Raise e ->
      (forall ch lv msg ex, SimpleLogger_write r ch lv msg ctx ex w = (Raise e, w)) /\
      (forall lv msg, SimpleLoggerProxy_log p lv msg ctx w = (Raise e, w)) /\
      (forall lv msg, call_log p lv msg ctx w = (Raise e, w)) /\
      (forall m msg, call_leveled m p msg ctx w = (Raise e, w)) /\
      (forall q,
          registered w r (lit "app") q ->
          (forall lv msg, SimpleLogger_log r lv msg ctx w = (Raise e, w)) /\
          (forall m msg, call_leveled m r msg ctx w = (Raise e, w)))) /\
  (f_closed f = true ->
   let e := ValueError "I/O operation on closed file." in
   is_OSError e = false /\
   (forall text, file_write (lg_fp l) text w = (Raise e, w)) /\
   (forall ch lv msg ctx ex entry,
       log_entry (clock w) ch lv msg ctx ex = Ok entry ->
       SimpleLogger_write r ch lv msg ctx ex w = (Raise e, w)) /\
   (forall lv msg ctx entry,
       log_entry (clock w) c lv msg ctx PyNone = Ok entry ->
       SimpleLoggerProxy_log p lv msg ctx w = (Raise e, w) /\
       call_log p lv msg ctx w = (Raise e, w)) /\
   (forall m msg ctx entry,
       log_entry (clock w) c (spec_level_tag m) msg ctx PyNone = Ok entry ->
       call_leveled m p msg ctx w = (Raise e, w)) /\
   (forall q m msg ctx entry,
       registered w r (lit "app") q ->
       log_entry (clock w) (lit "app") (spec_level_tag m) msg ctx PyNone
       = Ok entry ->
       call_leveled m r msg ctx w = (Raise e, w))).
Proof.
  intros Hr Hf Hp.
  assert (Hformat : forall ch lv msg ctx ex e,
             log_entry (clock w) ch lv msg ctx ex = Raise e ->
             SimpleLogger_write r ch lv msg ctx ex w = (Raise e, w)).
  { intros ch lv msg ctx ex e He. rewrite (write_run w r l f) by done.
    by rewrite He. }
  split; [exact Hformat|]. split.
  - intros ctx e Hj.
    assert (Hwrite : forall ch lv msg ex,
               SimpleLogger_write r ch lv msg ctx ex w = (Raise e, w)).
    { intros. apply Hformat. by apply log_entry_raises. }
    split; [done|].
    split. { intros. by rewrite (proxy_log_run w p r c). }
    split. { intros. by rewrite (proxy_call_log w p r c). }
    split. { intros. by rewrite leveled_is_log, (proxy_call_log w p r c). }
    intros q Hreg. split.
    + intros lv msg.
      by destruct (root_log_registered w r q lv msg ctx Hreg) as [-> _].
    + intros m msg. rewrite leveled_is_log.
      by destruct (root_log_registered w r q (spec_level_tag m) msg ctx Hreg)
        as [_ ->].
  - intros Hc e.
    assert (Hwrite : forall ch lv msg ctx ex entry,
               log_entry (clock w) ch lv msg ctx ex = Ok entry ->
               SimpleLogger_write r ch lv msg ctx ex w = (Raise e, w)).
    { intros ch lv msg ctx ex entry He. rewrite (write_run w r l f) by done.
      by rewrite He, Hc. }
    split; [done|]. split.
    { intros text. unfold file_write. py_unfold. by rewrite Hf, Hc. }
    split; [done|]. split.
    { intros lv msg ctx entry He.
      rewrite (proxy_log_run w p r c), (proxy_call_log w p r c) by done.
      split; by apply (Hwrite _ _ _ _ _ entry). }
    split.
    { intros m msg ctx entry He.
      rewrite leveled_is_log, (proxy_call_log w p r c) by done.
      by apply (Hwrite _ _ _ _ _ entry). }
    intros q m msg ctx entry Hreg He. rewrite leveled_is_log.
    destruct (root_log_registered w r q (spec_level_tag m) msg ctx Hreg)
      as [_ ->].
    by apply (Hwrite _ _ _ _ _ entry).
Qed.

Lemma release_loop_stops w r l used keys :
  heap w !! r = Some (ObjLogger l) ->
  length (lg_proxy_registry l) ≠ used ->
  release_loop r used keys w
  = (Raise (RuntimeError "dictionary changed size during iteration"), w).
Proof.
  intros Hr Hlen. destruct keys; simpl; py_unfold; rewrite Hr;
    by rewrite decide_False.
Qed.

(** The loop of [__del__] on a registry with a first entry: that entry
    is deleted, and the next step of the iterator raises. *)
Lemma release_loop_first w r l k q rest :
  heap w !! r = Some (ObjLogger l) ->
  lg_proxy_registry l = (k, q) :: rest ->
  release_loop r (length (lg_proxy_registry l))
               (map fst (lg_proxy_registry l)) w
  = (Raise (RuntimeError "dictionary changed size during iteration"),
     set_heap (<[r := ObjLogger {| lg_fp := lg_fp l;
                                   lg_proxy_registry := rest |}]> (heap w)) w).
Proof.
  intros Hr Hreg. rewrite Hreg. cbn [map fst release_loop].
  unfold registry_del. py_unfold. rewrite Hr, Hreg.
  rewrite decide_True by done. cbv beta. rewrite Hr, Hreg, dict_get_head.
  cbn [dict_del]. rewrite decide_True by done.
  erewrite release_loop_stops; [done| |].
  - simpl. apply lookup_insert_eq.
  - simpl. lia.
Qed.

Lemma bind_run {A B} (m : py A) (k : A -> py B) (w : world) :
  (m ≫= k) w
  = match m w with
    | (Ok a, w') => k a w'
    | (Raise e, w') => (Raise e, w')
    end.
Proof. reflexivity. Qed.

(** The first statement of [__del__]: afterwards the file object is
    closed, and no other object has changed. *)
Lemma close_if_open w a f :
  heap w !! a = Some (ObjFile f) ->
  exists w' f',
    (is_closed ← file_closed a;
     if negb is_closed then file_close a else mret tt) w = (Ok tt, w') /\
    heap w' !! a = Some (ObjFile f') /\ f_closed f' = true /\
    (forall b, b ≠ a -> heap w' !! b = heap w !! b).
Proof.
  intros Hf. rewrite bind_run. unfold file_closed. rewrite bind_run.
  unfold get_file at 1. rewrite Hf. unfold mret at 1, py_ret.
  destruct (f_closed f) eqn:Hc; cbn [negb].
  - exists w, f. by repeat split.
  - unfold file_close. rewrite bind_run. unfold get_file at 1.
    rewrite Hf, Hc. unfold drain.
    destruct (fs w !! f_name f) as [[writable data|]|];
      (eexists _, _; split; [reflexivity|]; cbn [heap set_heap];
       rewrite lookup_insert_eq; split; [reflexivity|];
       split; [reflexivity|];
       intros b Hb; by rewrite lookup_insert_ne).
Qed.

(** C9 against the code: [__del__] on a root logger with a registered
    channel (every constructed logger has ["app"]) closes the file, then
    deletes the first entry of the registry only and raises
    [RuntimeError]: the dict changed size while the loop iterates over
    it. The other entries stay registered. *)
Theorem teardown_stops_at_first_entry w r l f k q rest :
  heap w !! r = Some (ObjLogger l) ->
  heap w !! lg_fp l = Some (ObjFile f) ->
  lg_proxy_registry l = (k, q) :: rest ->
  exists w',
    SimpleLogger___del__ r w
    = (Raise (RuntimeError "dictionary changed size during iteration"), w') /\
    heap w' !! r
    = Some (ObjLogger {| lg_fp := lg_fp l; lg_proxy_registry := rest |}) /\
    exists f', heap w' !! lg_fp l = Some (ObjFile f') /\ f_closed f' = true.
Proof.
  intros Hr Hf Hreg.
  assert (Hne : r ≠ lg_fp l) by (intros E; rewrite E, Hf in Hr; discriminate).
  destruct (close_if_open w (lg_fp l) f Hf) as (w1 & f' & Hclose & Hf' & Hc & Hsame).
  unfold SimpleLogger___del__. rewrite bind_run. unfold get_logger at 1.
  rewrite Hr. rewrite bind_run in Hclose.
  rewrite bind_run. destruct (file_closed (lg_fp l) w) as [[c|e] w0'];
    [|discriminate].
  rewrite bind_run, Hclose. rewrite bind_run. unfold get_logger at 1.
  rewrite (Hsame r Hne), Hr.
  rewrite (release_loop_first w1 r l k q rest) by (by rewrite ?Hsame).
  eexists. split; [reflexivity|]. cbn [heap set_heap].
  split; [apply lookup_insert_eq|].
  exists f'. by rewrite lookup_insert_ne.
Qed.

(** What does hold at teardown: with no channel registered the root
    logger closes its file and returns; a proxy does nothing. *)
Lemma teardown_without_channels w r l f :
  heap w !! r = Some (ObjLogger l) ->
  heap w !! lg_fp l = Some (ObjFile f) ->
  lg_proxy_registry l = [] ->
  exists w' f',
    SimpleLogger___del__ r w = (Ok tt, w') /\
    heap w' !! r = Some (ObjLogger l) /\
    heap w' !! lg_fp l = Some (ObjFile f') /\ f_closed f' = true.
Proof.
  intros Hr Hf Hreg.
  assert (Hne : r ≠ lg_fp l) by (intros E; rewrite E, Hf in Hr; discriminate).
  destruct (close_if_open w (lg_fp l) f Hf) as (w1 & f' & Hclose & Hf' & Hc & Hsame).
  unfold SimpleLogger___del__. rewrite bind_run. unfold get_logger at 1.
  rewrite Hr. rewrite bind_run in Hclose.
  rewrite bind_run. destruct (file_closed (lg_fp l) w) as [[c|e] w0'];
    [|discriminate].
  rewrite bind_run, Hclose. rewrite bind_run. unfold get_logger at 1.
  rewrite (Hsame r Hne), Hr, Hreg. cbn [map length release_loop].
  rewrite bind_run. unfold get_logger at 1. rewrite (Hsame r Hne), Hr, Hreg.
  cbn [length]. rewrite decide_True by done.
  exists w1, f'. rewrite (Hsame r Hne). by repeat split.
Qed.

Lemma proxy_teardown_does_nothing p w :
  SimpleLoggerProxy___del__ p w = (Ok tt, w).
Proof. reflexivity. Qed.

(** C10, amended: [write] called on a proxy itself always fails and
    changes nothing. The entry is formatted before [self.fp] is read, so
    when formatting raises, the call raises that exception (the
    [TypeError] of [json.dumps] for a context that does not serialise,
    the [ValueError] of an [int] beyond the digit limit in the context
    or in the extra); in every other case the call raises
    [AttributeError] for [fp], which a proxy does not have. [fork],
    [log] and the leveled methods on the proxy go to the root logger. *)
Theorem proxy_write_always_fails w p px ch lv msg ctx ex :
  heap w !! p = Some (ObjProxy px) ->
  SimpleLogger_write p ch lv msg ctx ex w
  = (Raise match log_entry (clock w) ch lv msg ctx ex with
           | Ok _ => AttributeError "fp"
           | Raise e => e
           end, w) /\
  (forall n, call_fork p n w = SimpleLogger_fork (px_logger px) n w) /\
  (forall level message context,
      call_log p level message context w
      = SimpleLogger_write (px_logger px) (px_channel px) level message context
          PyNone w) /\
  (forall m message context,
      call_leveled m p message context w
      = SimpleLogger_write (px_logger px) (px_channel px) (spec_level_tag m)
          message context PyNone w).
Proof.
  intros Hp. split; [|split; [|split]].
  - unfold SimpleLogger_write. py_unfold.
    destruct (log_entry _ _ _ _ _ _) as [entry|e]; [|done]. by rewrite Hp.
  - intros n. unfold call_fork. rewrite Hp. destruct px as [r c].
    by apply (proxy_fork_run w p r c).
  - intros. destruct px as [r c]. by apply proxy_call_log.
  - intros. rewrite leveled_is_log. destruct px as [r c]. by apply proxy_call_log.
Qed.

End Errors.

(** C10, as stated, fails: with a [set] as context, [write] on the proxy
    stops in [json.dumps] with a [TypeError], not at [self.fp]. *)
Lemma proxy_write_raises_type_error :
  heap w_fresh !! 2
  = Some (ObjProxy {| px_logger := 1; px_channel := lit "app" |}) /\
  SimpleLogger_write (H := ascii_only) 2 (lit "app") (lit "INFO") (lit "m")
    (PyObject "set" (lit "{1}")) PyNone w_fresh
  = (Raise (TypeError "Object of type set is not JSON serializable"), w_fresh).
Proof. split; vm_compute; reflexivity. Qed.

(** *** Context and extra *)

Section Rendering.
Context `{UnicodeData}.

(** C5: when a [write] returns on a root logger that writes at the end
    of its file, the entry that has reached the file holds, after the
    message, the [json.dumps] text of the context, a space, and the
    [str] of the extra. An omitted context is the JSON text [[]] (the
    mapping from ["k"] to ["v"] gives an object with that one member, an
    empty mapping gives [{}], not [[]]); an omitted extra is the text
    [[]] that [str] gives for an empty list, and a supplied extra is its
    [str], which is not its JSON text: a string goes in as it is and a
    dict is shown with single quotes. *)
Theorem context_json_extra_str w w' r l f data ch lv msg ctx ex :
  logger_ready w r l f data -> at_end f data ->
  SimpleLogger_write r ch lv msg ctx ex w = (Ok tt, w') ->
  let head :=
    lit "[" ++ strftime (clock w) ++ lit "] " ++ str_lower ch ++ lit "."
    ++ str_upper lv ++ lit ": " ++ msg ++ lit " " in
  let k_v := PyDict [(PyStr (lit "k"), PyStr (lit "v"))] in
  exists j x,
    json_dumps (if is_None ctx then PyList [] else ctx) = Ok j /\
    x = py_str (if is_None ex then PyList [] else ex) /\
    file_text w' (f_name f)
    = Some (data ++ head ++ j ++ lit " " ++ x ++ [NEWLINE]) /\
    (ctx = PyNone -> j = lit "[]") /\
    (ctx = PyDict [] -> j = lit "{}") /\
    (ctx = k_v ->
     j = lit "{" ++ [QUOTE] ++ lit "k" ++ [QUOTE] ++ lit ": "
         ++ [QUOTE] ++ lit "v" ++ [QUOTE] ++ lit "}") /\
    (ex = PyNone -> x = lit "[]") /\
    (forall s, ex = PyStr s -> x = s) /\
    (ex = k_v -> x = lit "{'k': 'v'}").
Proof.
  intros Hready Hend Hrun head k_v.
  destruct (write_ok_text _ _ _ _ _ _ _ _ _ _ _ Hready Hend Hrun)
    as (j & Hj & Htext).
  exists j, (py_str (if is_None ex then PyList [] else ex)).
  split; [done|]. split; [done|]. split.
  { rewrite Htext. subst head. unfold entry_text.
    by rewrite <- !app_assoc. }
  split. { intros ->. by apply Ok_inj in Hj. }
  split. { intros ->. by apply Ok_inj in Hj. }
  split. { intros ->. by apply Ok_inj in Hj. }
  split. { by intros ->. }
  split. { by intros s ->. }
  intros ->. vm_compute. reflexivity.
Qed.

End Rendering.

(** The scenario of the specification: [critical("payment failed",
    {"order_id": 42})] through the proxy of the channel ["billing"],
    which is [write] on the root logger; and a [write] whose extra is
    the mapping from ["k"] to ["v"]. *)
Lemma context_json_extra_str_witness :
  file_text
    (SimpleLogger_write (H := ascii_only) 1 (lit "billing") (lit "CRITICAL")
       (lit "payment failed") (PyDict [(PyStr (lit "order_id"), PyInt 42)])
       PyNone w_fresh).2 x_log
  = Some (lit "[2024-03-09 07:05:00] billing.CRITICAL: payment failed {"
          ++ [QUOTE] ++ lit "order_id" ++ [QUOTE] ++ lit ": 42} []" ++ [NEWLINE]) /\
  file_text
    (SimpleLogger_write (H := ascii_only) 1 (lit "app") (lit "info")
       (lit "m") PyNone (PyDict [(PyStr (lit "k"), PyStr (lit "v"))])
       w_fresh).2 x_log
  = Some (lit "[2024-03-09 07:05:00] app.INFO: m [] {'k': 'v'}" ++ [NEWLINE]).
Proof.
  split.
  - destruct (context_json_extra_str (H := ascii_only) w_fresh
                (SimpleLogger_write (H := ascii_only) 1 (lit "billing")
                   (lit "CRITICAL") (lit "payment failed")
                   (PyDict [(PyStr (lit "order_id"), PyInt 42)]) PyNone
                   w_fresh).2
                1 {| lg_fp := 0; lg_proxy_registry := [(lit "app", 2)] |}
                {| f_name := x_log; f_mode := ModeW; f_pos := 0;
                   f_closed := false; f_pending := [] |}
                [] (lit "billing") (lit "CRITICAL") (lit "payment failed")
                (PyDict [(PyStr (lit "order_id"), PyInt 42)]) PyNone)
      as (j & x & Hj & Hx & Htext & _ & _ & _ & Hnone & _).
    + repeat split; try (vm_compute; reflexivity).
      exists true. vm_compute; reflexivity.
    + right; reflexivity.
    + vm_compute; reflexivity.
    + vm_compute in Hj. injection Hj as <-. rewrite (Hnone eq_refl) in Htext.
      exact Htext.
  - destruct (context_json_extra_str (H := ascii_only) w_fresh
                (SimpleLogger_write (H := ascii_only) 1 (lit "app")
                   (lit "info") (lit "m") PyNone
                   (PyDict [(PyStr (lit "k"), PyStr (lit "v"))]) w_fresh).2
                1 {| lg_fp := 0; lg_proxy_registry := [(lit "app", 2)] |}
                {| f_name := x_log; f_mode := ModeW; f_pos := 0;
                   f_closed := false; f_pending := [] |}
                [] (lit "app") (lit "info") (lit "m") PyNone
                (PyDict [(PyStr (lit "k"), PyStr (lit "v"))]))
      as (j & x & Hj & Hx & Htext & Hctx & _ & _ & _ & _ & Hkv).
    + repeat split; try (vm_compute; reflexivity).
      exists true. vm_compute; reflexivity.
    + right; reflexivity.
    + vm_compute; reflexivity.
    + rewrite (Hctx eq_refl), (Hkv eq_refl) in Htext. exact Htext.
Defined.

(** A [set] as context on the proxy of ["app"], and a call on the
    logger after [logger.fp.close()]. *)
Lemma write_errors_propagate_witness :
  call_leveled (H := ascii_only) Info 2 (lit "m") (PyObject "set" (lit "{1}"))
    w_fresh
  = (Raise (TypeError "Object of type set is not JSON serializable"), w_fresh) /\
  call_leveled (H := ascii_only) Info 1 (lit "m") PyNone w_closed
  = (Raise (ValueError "I/O operation on closed file."), w_closed).
Proof.
  split.
  - destruct (write_errors_propagate (H := ascii_only) w_fresh 1
                {| lg_fp := 0; lg_proxy_registry := [(lit "app", 2)] |}
                {| f_name := x_log; f_mode := ModeW; f_pos := 0;
                   f_closed := false; f_pending := [] |}
                2 (lit "app"))
      as (_ & Hjson & _).
    + vm_compute; reflexivity.
    + vm_compute; reflexivity.
    + vm_compute; reflexivity.
    + destruct (Hjson (PyObject "set" (lit "{1}"))
                  (TypeError "Object of type set is not JSON serializable"))
        as (_ & _ & _ & Hleveled & _); [vm_compute; reflexivity|].
      apply Hleveled.
  - destruct (write_errors_propagate (H := ascii_only) w_closed 1
                {| lg_fp := 0; lg_proxy_registry := [(lit "app", 2)] |}
                {| f_name := x_log; f_mode := ModeW; f_pos := 0;
                   f_closed := true; f_pending := [] |}
                2 (lit "app"))
      as (_ & _ & Hclosed).
    + vm_compute; reflexivity.
    + vm_compute; reflexivity.
    + vm_compute; reflexivity.
    + destruct (Hclosed eq_refl) as (_ & _ & _ & _ & _ & Hroot).
      apply (Hroot 2 Info (lit "m") PyNone
               (lit "[2024-03-09 07:05:00] app.INFO: m [] []" ++ [NEWLINE])).
      * exists {| lg_fp := 0; lg_proxy_registry := [(lit "app", 2)] |}.
        repeat split; vm_compute; reflexivity.
      * vm_compute; reflexivity.
Defined.

(** Teardown of a logger with the channels ["app"] and ["billing"]:
    ["billing"] is still registered afterwards. *)
Lemma teardown_stops_at_first_entry_witness :
  (SimpleLogger___del__ 1 w_billing).1
  = Raise (RuntimeError "dictionary changed size during iteration") /\
  heap (SimpleLogger___del__ 1 w_billing).2 !! 1
  = Some (ObjLogger {| lg_fp := 0;
                       lg_proxy_registry := [(lit "billing", 3)] |}).
Proof.
  destruct (teardown_stops_at_first_entry w_billing 1
              {| lg_fp := 0;
                 lg_proxy_registry := [(lit "app", 2); (lit "billing", 3)] |}
              {| f_name := x_log; f_mode := ModeW; f_pos := 0;
                 f_closed := false; f_pending := [] |}
              (lit "app") 2 [(lit "billing", 3)])
    as (w' & Hrun & Hreg & _).
  - vm_compute; reflexivity.
  - vm_compute; reflexivity.
  - reflexivity.
  - rewrite Hrun. split; [reflexivity|exact Hreg].
Defined.

(** [write] on the proxy of ["app"] with nothing but a message, and
    with an [int] of 4301 digits as extra. *)
Lemma proxy_write_always_fails_witness :
  SimpleLogger_write (H := ascii_only) 2 (lit "app") (lit "INFO") (lit "m")
    PyNone PyNone w_fresh
  = (Raise (AttributeError "fp"), w_fresh) /\
  SimpleLogger_write (H := ascii_only) 2 (lit "app") (lit "INFO") (lit "m")
    PyNone (PyInt (10 ^ 4300)) w_fresh
  = (Raise (ValueError
              ("Exceeds the limit (4300 digits) for integer string conversion; "
               +:+ "use sys.set_int_max_str_digits() to increase the limit")),
     w_fresh).
Proof.
  split.
  - destruct (proxy_write_always_fails (H := ascii_only) w_fresh 2
                {| px_logger := 1; px_channel := lit "app" |}
                (lit "app") (lit "INFO") (lit "m") PyNone PyNone)
      as (Hrun & _).
    + vm_compute; reflexivity.
    + exact Hrun.
  - destruct (proxy_write_always_fails (H := ascii_only) w_fresh 2
                {| px_logger := 1; px_channel := lit "app" |}
                (lit "app") (lit "INFO") (lit "m") PyNone (PyInt (10 ^ 4300)))
      as (Hrun & _).
    + vm_compute; reflexivity.
    + rewrite Hrun. vm_compute; reflexivity.
Defined.

(** ** Further properties: whole sessions *)

(** What [fork] does to the world of a root logger. *)
Lemma fork_effect w r l c :
  heap w !! r = Some (ObjLogger l) ->
  exists p w1 l1,
    SimpleLogger_fork r c w = (Ok p, w1) /\
    heap w1 !! r = Some (ObjLogger l1) /\
    lg_fp l1 = lg_fp l /\
    dict_get c (lg_proxy_registry l1) = Some p /\
    fs w1 = fs w /\ clock w1 = clock w /\
    (forall a o, a ≠ r -> heap w !! a = Some o -> heap w1 !! a = Some o) /\
    (forall k q,
        dict_get k (lg_proxy_registry l) = Some q ->
        dict_get k (lg_proxy_registry l1) = Some q).
Proof.
  intros Hr. destruct (dict_get c (lg_proxy_registry l)) as [q|] eqn:Hc.
  - exists q, w, l. rewrite (fork_registered w r l c q) by done.
    by repeat split.
  - rewrite (fork_new w r l c) by done. eexists _, _, _.
    split; [reflexivity|]. cbn [heap set_heap fs clock].
    split; [apply lookup_insert_eq|]. cbn [lg_fp lg_proxy_registry].
    split; [done|]. split.
    { rewrite dict_get_snoc, Hc. by rewrite decide_True. }
    split; [done|]. split; [done|]. split.
    + intros a o Ha Hao. rewrite lookup_insert_ne by done.
      by apply lookup_insert_fresh.
    + intros k q Hk. by apply dict_get_app_l.
Qed.

Lemma fork_keeps_serving w r name data c p w1 :
  serving w r name data ->
  SimpleLogger_fork r c w = (Ok p, w1) ->
  serving w1 r name data.
Proof.
  intros (l & f & (Hr & Hf & Hopen & Hpend & wr & Hfs) & Hend & Hname & Hbound)
         Hfork.
  destruct (fork_effect w r l c Hr)
    as (p' & w1' & l1 & Hfork' & Hr1 & Hfp & _ & Hfs1 & _ & Hframe & _).
  rewrite Hfork in Hfork'. injection Hfork' as <- <-.
  exists l1, f. split; [|split; [done|split; [done|]]].
  - split; [done|]. rewrite Hfp. split.
    + apply Hframe; [|done]. intros E. rewrite E, Hr in Hf. discriminate.
    + repeat split; try done. exists wr. by rewrite Hfs1.
  - by apply (fork_keeps_bound w r c p).
Qed.

Lemma fork_ok w r l c :
  heap w !! r = Some (ObjLogger l) ->
  exists p w1, SimpleLogger_fork r c w = (Ok p, w1).
Proof.
  intros Hr. destruct (fork_effect w r l c Hr) as (p & w1 & _ & Hfork & _).
  by exists p, w1.
Qed.

Section Sessions.
Context `{UnicodeData}.

(** [fork] through the root logger or through one of its proxies is
    [fork] on the root logger. *)
Lemma owned_fork w r l self c :
  heap w !! r = Some (ObjLogger l) ->
  owned w r self ->
  call_fork self c w = SimpleLogger_fork r c w.
Proof.
  intros Hr [-> | [c' Hp]]; unfold call_fork.
  - by rewrite Hr.
  - rewrite Hp. by apply (proxy_fork_run w self r c').
Qed.

(** One call of [write] on a serving logger: it returns and the file has
    one more entry, the one formatted from the arguments of the call,
    or it raises and nothing has changed. *)
Lemma write_step w r name data ch lv msg ctx ex o w' :
  serving w r name data ->
  SimpleLogger_write r ch lv msg ctx ex w = (o, w') ->
  (o = Ok tt /\
   exists entry,
     log_entry (clock w) ch lv msg ctx ex = Ok entry /\
     serving w' r name (data ++ entry)) \/
  (is_ok o = false /\ w' = w).
Proof.
  intros (l & f & Hready & Hend & Hname & Hbound) Hrun.
  pose proof Hready as (Hr & Hf & Hopen & _).
  destruct o as [[]|e0].
  - left. split; [done|].
    destruct (write_returned _ _ _ _ _ _ _ _ _ _ _ Hready Hend Hrun)
      as (entry & f' & Hentry & _ & _ & _ & _ & _ & Hname' & _ & Hready' & Hend').
    exists entry. split; [done|].
    exists l, f'. split; [done|]. split; [done|]. split; [congruence|].
    by apply (write_keeps_bound w r l f ch lv msg ctx ex (Ok tt)).
  - right. split; [done|].
    rewrite (write_run w r l f) in Hrun by done. rewrite Hopen in Hrun.
    destruct (log_entry _ _ _ _ _ _) as [entry|e]; [|by injection Hrun].
    destruct (forallb can_encode entry); [|by injection Hrun].
    destruct Hready as (_ & _ & _ & _ & wr & Hfs).
    unfold drain in Hrun. cbn [f_name fs set_heap] in Hrun.
    rewrite Hfs in Hrun. discriminate Hrun.
Qed.

(** One call of [log], on the root logger or on one of its proxies. *)
Lemma log_step w r name data self lv msg ctx o w' :
  serving w r name data ->
  owned w r self ->
  call_log self lv msg ctx w = (o, w') ->
  (o = Ok tt /\
   exists entry,
     log_entry (clock w) (bound_channel w self) lv msg ctx PyNone = Ok entry /\
     serving w' r name (data ++ entry)) \/
  (is_ok o = false /\ serving w' r name data).
Proof.
  intros Hserv [-> | [c Hp]] Hrun.
  - pose proof Hserv as (l & f & (Hr & _) & _ & _ & Hbound).
    destruct (root_log_run w r lv msg ctx Hbound) as (q & w1 & Hfork & _ & Hlog).
    unfold call_log in Hrun. rewrite Hr, Hlog in Hrun.
    pose proof (fork_keeps_serving _ _ _ _ _ _ _ Hserv Hfork) as Hserv1.
    destruct (fork_effect w r l _DEFAULT_CHANNEL Hr)
      as (q' & w1' & _ & Hfork' & _ & _ & _ & _ & Hclock & _).
    rewrite Hfork in Hfork'. injection Hfork' as <- <-.
    unfold bound_channel. rewrite Hr.
    destruct (write_step _ _ _ _ _ _ _ _ _ _ _ Hserv1 Hrun)
      as [(-> & entry & Hentry & Hserv') | (Hfail & ->)].
    + left. split; [done|]. exists entry. by rewrite <- Hclock.
    + by right.
  - rewrite (proxy_call_log w self r c) in Hrun by done.
    unfold bound_channel. rewrite Hp. cbn [px_channel].
    destruct (write_step _ _ _ _ _ _ _ _ _ _ _ Hserv Hrun)
      as [(-> & entry & Hentry & Hserv') | (Hfail & ->)].
    + left. split; [done|]. by exists entry.
    + by right.
Qed.

Lemma serving_set_clock w r name data d :
  serving w r name data -> serving (set_clock d w) r name data.
Proof. by intros (l & f & Hready & Hend & Hname & Hbound); exists l, f. Qed.

Lemma write_keeps_registered w r name data c q ch lv msg ctx ex o w' :
  serving w r name data ->
  registered w r c q ->
  SimpleLogger_write r ch lv msg ctx ex w = (o, w') ->
  registered w' r c q.
Proof.
  intros (l & f & (Hr & Hf & _) & _) (l' & Hr' & Hc & Hq) Hrun.
  pose proof (write_frame _ _ _ _ _ _ _ _ _ _ _ Hr Hf Hrun) as Hframe.
  exists l'. split; [|split; [done|]].
  - rewrite Hframe; [done|]. intros E. rewrite E, Hf in Hr. discriminate.
  - rewrite Hframe; [done|]. intros E. rewrite E, Hf in Hq. discriminate.
Qed.

Lemma fork_keeps_registered w r c q c' p w1 :
  registered w r c q ->
  SimpleLogger_fork r c' w = (Ok p, w1) ->
  registered w1 r c q.
Proof.
  intros (l & Hr & Hc & Hq) Hfork.
  destruct (fork_effect w r l c' Hr)
    as (p' & w1' & l1 & Hfork' & Hr1 & _ & _ & _ & _ & Hframe & Hkeep).
  rewrite Hfork in Hfork'. injection Hfork' as <- <-.
  exists l1. split; [done|]. split; [by apply Hkeep|].
  apply Hframe; [|done]. intros E. rewrite E, Hr in Hq. discriminate.
Qed.

Lemma log_keeps_registered w r name data self c q lv msg ctx o w' :
  serving w r name data ->
  owned w r self ->
  registered w r c q ->
  call_log self lv msg ctx w = (o, w') ->
  registered w' r c q.
Proof.
  intros Hserv [-> | [c' Hp]] Hreg Hrun.
  - pose proof Hserv as (l & f & (Hr & _) & _ & _ & Hbound).
    destruct (root_log_run w r lv msg ctx Hbound) as (p & w1 & Hfork & _ & Hlog).
    unfold call_log in Hrun. rewrite Hr, Hlog in Hrun.
    eapply write_keeps_registered; [|by eapply fork_keeps_registered|done].
    by eapply fork_keeps_serving.
  - rewrite (proxy_call_log w self r c') in Hrun by done.
    by eapply write_keeps_registered.
Qed.

(** What a step of a session adds to the file. *)
Lemma logged_step (o : outcome unit) (e : outcome pystr) data (P : pystr -> Prop) :
  (o = Ok tt /\ exists entry, e = Ok entry /\ P (data ++ entry)) \/
  (is_ok o = false /\ P data) ->
  P (data ++ concat (logged o e)).
Proof.
  intros [(-> & entry & -> & HP) | (Hfail & HP)].
  - cbn [logged concat]. by rewrite app_nil_r.
  - destruct o; [discriminate Hfail|]. cbn [logged concat]. by rewrite app_nil_r.
Qed.

(** The invariant of a session. *)
Lemma session_invariant r name w n w' data :
  serving w r name data ->
  session r w n w' ->
  serving w' r name (data ++ concat n) /\
  (forall c q, registered w r c q -> registered w' r c q).
Proof.
  intros Hserv Hsession. revert data Hserv.
  induction Hsession as
    [ w
    | w d n w' _ IH
    | w self c o w1 n w' Hown Hrun _ IH
    | w ch lv msg ctx ex o w1 n w' Hrun _ IH
    | w self lv msg ctx o w1 n w' Hown Hrun _ IH
    | w m self msg ctx o w1 n w' Hown Hrun _ IH ];
    intros data Hserv.
  - simpl. rewrite app_nil_r. by split.
  - destruct (IH data (serving_set_clock _ _ _ _ d Hserv)) as (Hserv' & Hreg).
    by split.
  - pose proof Hserv as (l & f & (Hr & _) & _).
    rewrite (owned_fork w r l self c Hr Hown) in Hrun.
    destruct (fork_ok w r l c Hr) as (p & w1' & Hfork).
    rewrite Hrun in Hfork. injection Hfork as -> ->.
    destruct (IH data (fork_keeps_serving _ _ _ _ _ _ _ Hserv Hrun))
      as (Hserv' & Hreg).
    split; [done|]. intros c' q Hcq.
    apply Hreg. by apply (fork_keeps_registered w r c' q c _ _ Hcq Hrun).
  - assert (Hserv1 : serving w1 r name
                       (data ++ concat (logged o (log_entry (clock w) ch lv msg
                                                    ctx ex)))).
    { apply (logged_step o _ data (serving w1 r name)).
      destruct (write_step _ _ _ _ _ _ _ _ _ _ _ Hserv Hrun)
        as [(-> & entry & Hentry & Hs) | (Hfail & ->)].
      - left. split; [done|]. by exists entry.
      - by right. }
    destruct (IH _ Hserv1) as (Hserv' & Hreg).
    rewrite concat_app, app_assoc. split; [done|].
    intros c q Hcq. apply Hreg.
    by apply (write_keeps_registered w r name data c q ch lv msg ctx ex
                _ _ Hserv Hcq Hrun).
  - assert (Hserv1 : serving w1 r name
                       (data ++ concat (logged o (log_entry (clock w)
                                                    (bound_channel w self) lv msg
                                                    ctx PyNone)))).
    { apply (logged_step o _ data (serving w1 r name)).
      destruct (log_step _ _ _ _ _ _ _ _ _ _ Hserv Hown Hrun)
        as [(-> & entry & Hentry & Hs) | (Hfail & Hs)].
      - left. split; [done|]. by exists entry.
      - by right. }
    destruct (IH _ Hserv1) as (Hserv' & Hreg).
    rewrite concat_app, app_assoc. split; [done|].
    intros c q Hcq. apply Hreg.
    by apply (log_keeps_registered w r name data self c q _ msg ctx
                _ _ Hserv Hown Hcq Hrun).
  - rewrite leveled_is_log in Hrun.
    assert (Hserv1 : serving w1 r name
                       (data ++ concat (logged o (log_entry (clock w)
                                                    (bound_channel w self)
                                                    (spec_level_tag m) msg
                                                    ctx PyNone)))).
    { apply (logged_step o _ data (serving w1 r name)).
      destruct (log_step _ _ _ _ _ _ _ _ _ _ Hserv Hown Hrun)
        as [(-> & entry & Hentry & Hs) | (Hfail & Hs)].
      - left. split; [done|]. by exists entry.
      - by right. }
    destruct (IH _ Hserv1) as (Hserv' & Hreg).
    rewrite concat_app, app_assoc. split; [done|].
    intros c q Hcq. apply Hreg.
    by apply (log_keeps_registered w r name data self c q _ msg ctx
                _ _ Hserv Hown Hcq Hrun).
Qed.

End Sessions.

Section SessionProperties.
Context `{UnicodeData}.


(** X2: a proxy stays registered for the whole session: if [c] is
    registered with the proxy [q] at the start, then at the end [fork(c)]
    still returns [q], changing nothing, and [q] is still bound to the
    logger and to [c]. *)
Theorem session_keeps_proxies r name w n w' data c q :
  serving w r name data ->
  registered w r c q ->
  session r w n w' ->
  registered w' r c q /\ SimpleLogger_fork r c w' = (Ok q, w').
Proof.
  intros Hserv Hreg Hsession.
  destruct (session_invariant r name w n w' data Hserv Hsession)
    as (_ & Hkeep).
  pose proof (Hkeep c q Hreg) as Hreg'. split; [done|].
  destruct Hreg' as (l & Hr & Hc & _). by apply (fork_registered w' r l).
Qed.

End SessionProperties.

(** After [fork], the name is registered with the proxy returned. *)
Lemma fork_registers w r c p w1 :
  registry_bound w r ->
  SimpleLogger_fork r c w = (Ok p, w1) ->
  registered w1 r c p.
Proof.
  intros Hbound Hfork.
  pose proof (fork_keeps_bound w r c p w1 Hbound Hfork) as (l1 & Hr1 & Hb1).
  destruct Hbound as (l & Hr & _).
  destruct (fork_effect w r l c Hr)
    as (p' & w1' & l1' & Hfork' & Hr1' & _ & Hc & _).
  rewrite Hfork in Hfork'. injection Hfork' as <- <-.
  rewrite Hr1 in Hr1'. injection Hr1' as <-.
  exists l1. split; [done|]. split; [done|]. by apply Hb1.
Qed.

(** X3: [fork] is injective on names: two calls in a row return the
    same proxy exactly when the names are equal, code point for code
    point. *)
Theorem fork_same_proxy_iff_same_name w r c1 c2 p1 p2 w1 w2 :
  registry_bound w r ->
  SimpleLogger_fork r c1 w = (Ok p1, w1) ->
  SimpleLogger_fork r c2 w1 = (Ok p2, w2) ->
  p1 = p2 <-> c1 = c2.
Proof.
  intros Hbound Hfork1 Hfork2.
  pose proof (fork_registers _ _ _ _ _ Hbound Hfork1) as Hreg1.
  pose proof (fork_keeps_bound _ _ _ _ _ Hbound Hfork1) as Hbound1.
  pose proof (fork_registers _ _ _ _ _ Hbound1 Hfork2) as Hreg2.
  pose proof (fork_keeps_registered _ _ _ _ _ _ _ Hreg1 Hfork2) as Hreg1'.
  split.
  - intros <-. destruct Hreg1' as (_ & _ & _ & Hp1).
    destruct Hreg2 as (_ & _ & _ & Hp2). congruence.
  - intros <-. destruct Hreg1 as (l1 & Hr1 & Hc1 & _).
    rewrite (fork_registered w1 r l1 c1 p1) in Hfork2 by done.
    by injection Hfork2.
Qed.

Section ForkThroughProxy.
Context `{UnicodeData}.

(** X4: [fork] never fails and never nests: called on the root logger
    or on any of its proxies, it returns a proxy that is bound to the
    root logger and registered in the registry of the root logger under
    the name asked for; the files are not touched. *)
Theorem fork_binds_to_root w r self c o w1 :
  registry_bound w r ->
  owned w r self ->
  call_fork self c w = (o, w1) ->
  exists p,
    o = Ok p /\ registered w1 r c p /\ registry_bound w1 r /\ fs w1 = fs w.
Proof.
  intros Hbound Hown Hrun. pose proof Hbound as (l & Hr & _).
  rewrite (owned_fork w r l self c Hr Hown) in Hrun.
  destruct (fork_effect w r l c Hr)
    as (p & w1' & _ & Hfork & _ & _ & _ & Hfs & _).
  rewrite Hrun in Hfork. injection Hfork as -> ->.
  exists p. split; [done|]. split; [by apply (fork_registers w)|].
  split; [by apply (fork_keeps_bound w r c p)|done].
Qed.

(** X5: [write] leaves nothing behind when it fails before the file is
    reached. On a root logger whose file object is open, a [write] that
    returns has formatted its entry and could encode every character of
    it; when formatting raises, [write] raises that exception, and when
    a character of the entry cannot be encoded it raises
    [UnicodeEncodeError]; in both cases the world is as before the
    call: no part of the entry is pending or in the file. *)
Theorem write_fails_without_effect w r l f data ch lv msg ctx ex :
  logger_ready w r l f data ->
  (forall w',
      SimpleLogger_write r ch lv msg ctx ex w = (Ok tt, w') ->
      exists entry,
        log_entry (clock w) ch lv msg ctx ex = Ok entry /\
        forallb can_encode entry = true) /\
  (forall e,
      log_entry (clock w) ch lv msg ctx ex = Raise e ->
      SimpleLogger_write r ch lv msg ctx ex w = (Raise e, w)) /\
  (forall entry,
      log_entry (clock w) ch lv msg ctx ex = Ok entry ->
      forallb can_encode entry = false ->
      SimpleLogger_write r ch lv msg ctx ex w = (Raise UnicodeEncodeError, w)).
Proof.
  intros (Hr & Hf & Hopen & _). split; [|split].
  - intros w' Hrun.
    destruct (write_returns _ _ _ _ _ _ _ _ _ _ Hr Hf Hrun)
      as (entry & Hentry & Henc & _).
    by exists entry.
  - intros e He. rewrite (write_run w r l f) by done. by rewrite He.
  - intros entry He Henc. rewrite (write_run w r l f) by done.
    by rewrite He, Hopen, Henc.
Qed.

End ForkThroughProxy.

(** ** Further properties: construction and shared files *)

(** The constructor raises what [open] raises and changes nothing, or
    it builds a logger on a file object [f] for the regular file the
    path leads to: opened for appending when the file was there, created
    empty when it was not. *)
Lemma init_cases path w :
  (exists e,
      SimpleLogger___init__ path w = (Raise e, w) /\
      (locate w path = NoWay e \/ e = OSError PermissionError \/
       e = OSError IsADirectoryError)) \/
  (exists name mode pos data wr t,
      locate w path = At name /\
      let f := fresh (dom (heap w)) in
      let w1 := set_heap (<[f := new_file name mode pos]> (heap w)) t in
      SimpleLogger___init__ path w
      = (Ok (constructed f w1).1, (constructed f w1).2) /\
      fs t !! name = Some (RegFile wr data) /\
      ((mode = ModeA /\ pos = length data /\ t = w /\ wr = true) \/
       (mode = ModeW /\ pos = 0 /\ data = [] /\ fs w !! name = None /\
        wr = new_files_writable w /\
        t = set_fs (<[name := RegFile (new_files_writable w) []]> (fs w)) w))).
Proof.
  destruct (locate w path) as [name|e] eqn:Hl.
  - destruct (fs w !! name) as [[[|] data|]|] eqn:Hp.
    + right. exists name, ModeA, (length data), data, true, w.
      split; [done|]. split; [by apply init_existing|]. split; [done|]. by left.
    + left. exists (OSError PermissionError).
      split; [by apply (init_unwritable path name data)|]. right. by left.
    + left. exists (OSError IsADirectoryError).
      split; [by apply (init_directory path name)|]. right. by right.
    + right.
      exists name, ModeW, 0, [], (new_files_writable w),
        (set_fs (<[name := RegFile (new_files_writable w) []]> (fs w)) w).
      split; [done|]. split; [by apply init_missing|].
      split; [simpl; apply lookup_insert_eq|]. by right.
  - left. exists e. split; [by apply init_refused|]. by left.
Qed.

(** Objects that exist are not touched when the constructor builds its
    logger. *)
Lemma constructed_frame f w1 a o :
  heap w1 !! a = Some o -> heap (constructed f w1).2 !! a = Some o.
Proof.
  intros Ha. simpl.
  rewrite lookup_insert_ne by (intros E; by apply (fresh_ne (heap w1) a o)).
  do 2 apply lookup_insert_fresh. exact Ha.
Qed.

(** A logger keeps serving when the world gains objects and the files
    stay as they are. *)
Lemma serving_frame w w' r name data :
  (forall a o, heap w !! a = Some o -> heap w' !! a = Some o) ->
  fs w' = fs w ->
  serving w r name data -> serving w' r name data.
Proof.
  intros Hframe Hfs
    (l & f & (Hr & Hf & Hopen & Hpend & wr & Hdata) & Hend & Hname & lb & Hrb & Hb).
  exists l, f. split; [|split; [done|split; [done|]]].
  - repeat split; auto. exists wr. by rewrite Hfs.
  - exists lb. split; [auto|]. intros k q Hk. apply Hframe. by apply Hb.
Qed.

(** What a constructor that returns has built. *)
Lemma init_returns path w r w1 :
  SimpleLogger___init__ path w = (Ok r, w1) ->
  exists name data l f q wr,
    locate w path = At name /\
    logger_ready w1 r l f data /\ at_end f data /\ f_name f = name /\
    registry_bound w1 r /\ registered w1 r (lit "app") q /\
    fs w1 !! name = Some (RegFile wr data) /\
    heap w !! r = None /\
    (file_text w name = Some data /\ f_mode f = ModeA /\ fs w1 = fs w /\
     wr = true \/
     fs w !! name = None /\ data = [] /\ f_mode f = ModeW /\
     wr = new_files_writable w /\
     fs w1 = <[name := RegFile (new_files_writable w) []]> (fs w)) /\
    resolution w1 = resolution w /\
    new_files_writable w1 = new_files_writable w /\
    (forall a x, heap w !! a = Some x -> heap w1 !! a = Some x).
Proof.
  intros Hrun.
  destruct (init_cases path w)
    as [(e & He & _) | (name & mode & pos & data & wr & t & Hl & Hinit & Ht & Hcase)];
    [rewrite Hrun in He; discriminate He|].
  cbv zeta in Hinit.
  set (f := fresh (dom (heap w))) in *.
  set (w0' := set_heap (<[f := new_file name mode pos]> (heap w)) t) in *.
  remember (constructed f w0') as cw eqn:Hcw.
  rewrite Hrun in Hinit. injection Hinit as -> ->. subst cw.
  assert (Hheap : heap t = heap w).
  { by destruct Hcase as [(_ & _ & -> & _) | (_ & _ & _ & _ & _ & ->)]. }
  assert (Hloc : resolution t = resolution w /\
                 new_files_writable t = new_files_writable w).
  { by destruct Hcase as [(_ & _ & -> & _) | (_ & _ & _ & _ & _ & ->)]. }
  eexists name, data, _, _, _, wr.
  split; [done|]. split.
  { apply (constructed_ready name mode pos data wr w0' (heap w) t);
      [reflexivity|exact Ht]. }
  split.
  { destruct Hcase as [(-> & _) | (-> & -> & -> & _)]; [by left | by right]. }
  split; [done|]. split; [apply constructed_bound|].
  split; [apply constructed_registered|].
  split; [exact Ht|].
  split.
  { pose proof (fresh_unused (heap w0')) as Hfresh. simpl in Hfresh.
    apply lookup_insert_None in Hfresh. by destruct Hfresh. }
  split.
  { destruct Hcase as [(-> & _ & -> & ->) | (-> & _ & -> & Hp & -> & ->)].
    - left. unfold file_text. by rewrite Ht.
    - by right. }
  split; [by destruct Hloc|]. split; [by destruct Hloc|].
  intros a x Ha. apply constructed_frame. simpl.
  by apply lookup_insert_fresh.
Qed.

(** X6: the constructor is all or nothing. When it raises, the world is
    unchanged, and the exception is the one of the refusal of the path,
    a [PermissionError] or an [IsADirectoryError]. When it returns, the
    logger is a new object serving the file the path leads to, at the
    end of the text the file held (of no text for a new file), with
    ["app"] registered; every other file and every object that existed
    is as before. *)
Theorem constructor_all_or_nothing path w o w1 :
  SimpleLogger___init__ path w = (o, w1) ->
  (exists e,
      o = Raise e /\ w1 = w /\
      (locate w path = NoWay e \/ e = OSError PermissionError \/
       e = OSError IsADirectoryError)) \/
  (exists r name data q,
      o = Ok r /\ locate w path = At name /\ heap w !! r = None /\
      serving w1 r name data /\
      registered w1 r (lit "app") q /\
      (file_text w name = Some data \/ fs w !! name = None /\ data = []) /\
      (forall other, other ≠ name -> fs w1 !! other = fs w !! other) /\
      (forall a x, heap w !! a = Some x -> heap w1 !! a = Some x)).
Proof.
  intros Hrun. destruct o as [r|e0].
  - right.
    destruct (init_returns path w r w1 Hrun)
      as (name & data & l & f & q & wr & Hl & Hready & Hend & Hname & Hbound
          & Hreg & _ & Hnew & Hcase & _ & _ & Hframe).
    exists r, name, data, q. split; [done|]. split; [done|]. split; [done|].
    split; [by exists l, f|]. split; [done|]. split.
    { destruct Hcase as [(? & _) | (? & ? & _)]; [by left | by right]. }
    split; [|done]. intros other Hother.
    destruct Hcase as [(_ & _ & -> & _) | (_ & _ & _ & _ & ->)]; [done|].
    by rewrite lookup_insert_ne.
  - left.
    destruct (init_cases path w)
      as [(e & He & Hwhy) | (? & ? & ? & ? & ? & ? & _ & Hinit & _)].
    + rewrite Hrun in He. injection He as -> ->. by exists e.
    + cbv zeta in Hinit. rewrite Hrun in Hinit. discriminate Hinit.
Qed.

(** X7: once a constructor has returned for a path, a second
    constructor that returns on a path that now leads to the same file,
    spelled the same way or another, has opened the file in append mode
    and left every file as it is; its logger is another object, at the
    end of the same text, and the first logger keeps serving. The
    second constructor raises [PermissionError] when the first one
    created the file and the process may not open for writing the files
    it creates. *)
Theorem second_constructor_appends path path2 name w r w1 :
  locate w path = At name ->
  locate w1 path2 = At name ->
  SimpleLogger___init__ path w = (Ok r, w1) ->
  (forall r2 w2,
      SimpleLogger___init__ path2 w1 = (Ok r2, w2) ->
      exists data l2 f2,
        r2 ≠ r /\ fs w2 = fs w1 /\
        logger_ready w2 r2 l2 f2 data /\ f_mode f2 = ModeA /\ f_name f2 = name /\
        serving w1 r name data /\ serving w2 r name data) /\
  (fs w !! name = None ->
   new_files_writable w = false ->
   SimpleLogger___init__ path2 w1 = (Raise (OSError PermissionError), w1)).
Proof.
  intros Hl Hl1 Hrun.
  destruct (init_returns path w r w1 Hrun)
    as (name' & data & l & f & q & wr & Hl' & Hready & Hend & Hname & Hbound
        & _ & Hfs & _ & Hcase & _ & _ & _).
  rewrite Hl in Hl'. injection Hl' as <-.
  assert (Hserv : serving w1 r name data) by (by exists l, f).
  split.
  - intros r2 w2 Hrun2.
    destruct (init_returns path2 w1 r2 w2 Hrun2)
      as (name2 & data2 & l2 & f2 & q2 & wr2 & Hl2' & Hready2 & _ & Hname2 & _
          & _ & _ & Hnew2 & Hcase2 & _ & _ & Hframe2).
    rewrite Hl1 in Hl2'. injection Hl2' as <-.
    destruct Hcase2 as [(Htext & Hmode & Hfs2 & _) | (Hnone & _)];
      [|by rewrite Hfs in Hnone].
    unfold file_text in Htext. rewrite Hfs in Htext. injection Htext as <-.
    exists data, l2, f2. split.
    { intros E. destruct Hready as (Hr & _). rewrite E, Hr in Hnew2. discriminate. }
    split; [done|]. split; [done|]. split; [done|]. split; [done|].
    split; [done|]. by apply (serving_frame w1).
  - intros Hnone Humask.
    destruct Hcase as [(Htext & _) | (_ & -> & _ & -> & _)].
    + unfold file_text in Htext. by rewrite Hnone in Htext.
    + rewrite Humask in Hfs. by apply (init_unwritable path2 name []).
Qed.

Section SharedFile.
Context `{UnicodeData}.

(** X8: two root loggers that both hold a file in append mode can write
    in turn: when the two calls return, each entry has landed after
    everything the file held, the one of the other logger included, and
    both loggers are ready for the next entry. *)
Theorem append_loggers_share_file w w1 w2 r1 l1 f1 r2 l2 f2 data
    ch1 lv1 msg1 ctx1 ex1 ch2 lv2 msg2 ctx2 ex2 :
  logger_ready w r1 l1 f1 data ->
  logger_ready w r2 l2 f2 data ->
  f_name f1 = f_name f2 ->
  f_mode f1 = ModeA -> f_mode f2 = ModeA ->
  lg_fp l1 ≠ lg_fp l2 ->
  SimpleLogger_write r1 ch1 lv1 msg1 ctx1 ex1 w = (Ok tt, w1) ->
  SimpleLogger_write r2 ch2 lv2 msg2 ctx2 ex2 w1 = (Ok tt, w2) ->
  exists e1 e2 f1' f2',
    log_entry (clock w) ch1 lv1 msg1 ctx1 ex1 = Ok e1 /\
    log_entry (clock w) ch2 lv2 msg2 ctx2 ex2 = Ok e2 /\
    file_text w1 (f_name f1) = Some (data ++ e1) /\
    file_text w2 (f_name f1) = Some (data ++ e1 ++ e2) /\
    logger_ready w2 r1 l1 f1' (data ++ e1 ++ e2) /\
    logger_ready w2 r2 l2 f2' (data ++ e1 ++ e2).
Proof.
  intros Hready1 Hready2 Hname Hm1 Hm2 Hfp Hrun1 Hrun2.
  destruct (write_returned _ _ _ _ _ _ _ _ _ _ _ Hready1 (or_introl Hm1) Hrun1)
    as (e1 & f1' & He1 & _ & Htext1 & _ & Hclock & Hheap1 & Hname1 & Hmode1
        & Hready1' & _).
  assert (Hready2' : logger_ready w1 r2 l2 f2 (data ++ e1)).
  { destruct Hready2 as (Hr2 & Hf2 & Hopen2 & Hpend2 & _).
    destruct Hready1 as (_ & Hf1 & _).
    destruct Hready1' as (_ & _ & _ & _ & wr & Hfs1).
    split.
    { rewrite Hheap1, lookup_insert_ne; [done|].
      intros E. rewrite E, Hr2 in Hf1. discriminate. }
    split; [by rewrite Hheap1, lookup_insert_ne|].
    split; [done|]. split; [done|]. exists wr. by rewrite <- Hname, <- Hname1. }
  destruct (write_returned _ _ _ _ _ _ _ _ _ _ _ Hready2' (or_introl Hm2) Hrun2)
    as (e2 & f2' & He2 & _ & Htext2 & _ & _ & Hheap2 & Hname2 & _
        & Hready2'' & _).
  rewrite Hclock in He2.
  exists e1, e2, f1', f2'. split; [done|]. split; [done|]. split; [done|].
  rewrite <- app_assoc in Htext2, Hready2''.
  split; [by rewrite Hname|]. split; [|done].
  destruct Hready1' as (Hr1 & Hf1' & Hopen1 & Hpend1 & _).
  destruct Hready2' as (Hr2 & Hf2 & _).
  destruct Hready2'' as (_ & _ & _ & _ & wr & Hfs2).
  split.
  { rewrite Hheap2, lookup_insert_ne; [done|].
    intros E. rewrite E, Hr1 in Hf2. discriminate. }
  split; [by rewrite Hheap2, lookup_insert_ne|].
  split; [done|]. split; [done|]. exists wr.
  by rewrite Hname1, Hname, <- Hname2.
Qed.

End SharedFile.

(** ** Further properties: teardown *)

(** One call of [__del__]: the file object ends up closed, the first
    entry of the registry, if there is one, is gone, and the call raises
    exactly when there was one. *)
Lemma del_effect w r l f :
  heap w !! r = Some (ObjLogger l) ->
  heap w !! lg_fp l = Some (ObjFile f) ->
  exists w' f',
    SimpleLogger___del__ r w
    = (match lg_proxy_registry l with
       | [] => Ok tt
       | _ => Raise (RuntimeError "dictionary changed size during iteration")
       end, w') /\
    heap w' !! r
    = Some (ObjLogger {| lg_fp := lg_fp l;
                         lg_proxy_registry := drop 1 (lg_proxy_registry l) |}) /\
    heap w' !! lg_fp l = Some (ObjFile f') /\ f_closed f' = true /\
    (forall a, a ≠ r -> a ≠ lg_fp l -> heap w' !! a = heap w !! a).
Proof.
  intros Hr Hf.
  assert (Hne : r ≠ lg_fp l) by (intros E; rewrite E, Hf in Hr; discriminate).
  destruct (close_if_open w (lg_fp l) f Hf) as (w1 & f' & Hclose & Hf' & Hc & Hsame).
  unfold SimpleLogger___del__. rewrite bind_run. unfold get_logger at 1.
  rewrite Hr. rewrite bind_run in Hclose.
  rewrite bind_run. destruct (file_closed (lg_fp l) w) as [[c|e] w0'];
    [|discriminate].
  rewrite bind_run, Hclose. rewrite bind_run. unfold get_logger at 1.
  rewrite (Hsame r Hne), Hr.
  destruct (lg_proxy_registry l) as [|[k q] rest] eqn:Hreg.
  - cbn [map length release_loop]. rewrite bind_run. unfold get_logger at 1.
    rewrite (Hsame r Hne), Hr, Hreg. cbn [length].
    rewrite decide_True by done.
    exists w1, f'. split; [reflexivity|]. rewrite (Hsame r Hne), Hr.
    split; [cbn [drop]; rewrite <- Hreg; by destruct l|].
    split; [done|]. split; [done|]. intros a _ Ha. by apply Hsame.
  - pose proof (release_loop_first w1 r l k q rest) as Hloop.
    rewrite Hreg in Hloop. rewrite Hloop; [|by rewrite Hsame|done].
    eexists _, f'. split; [reflexivity|]. cbn [heap set_heap drop].
    split; [by rewrite lookup_insert_eq|].
    split; [by rewrite lookup_insert_ne|]. split; [done|].
    intros a Har Ha. rewrite lookup_insert_ne by done. by apply Hsame.
Qed.

Lemma after_teardowns_effect n w r l f :
  heap w !! r = Some (ObjLogger l) ->
  heap w !! lg_fp l = Some (ObjFile f) ->
  heap (after_teardowns n r w) !! r
  = Some (ObjLogger {| lg_fp := lg_fp l;
                       lg_proxy_registry := drop n (lg_proxy_registry l) |}) /\
  exists f', heap (after_teardowns n r w) !! lg_fp l = Some (ObjFile f').
Proof.
  revert w l f. induction n as [|n IH]; intros w l f Hr Hf.
  - simpl. rewrite drop_0. split; [by destruct l|by exists f].
  - destruct (del_effect w r l f Hr Hf) as (w' & f' & Hrun & Hr' & Hf' & _).
    cbn [after_teardowns]. rewrite Hrun. cbn [snd].
    destruct (IH w' _ f' Hr' Hf') as [Hrn Hfn].
    cbn [lg_fp lg_proxy_registry] in Hrn, Hfn.
    rewrite drop_drop in Hrn. by split.
Qed.

Section Teardown.
Context `{UnicodeData}.

(** X9: after [__del__], whether it returned or raised, the logger is
    unusable: a [write] whose entry can be formatted raises the
    [ValueError] of the closed file and changes nothing, and so does
    [log] on a proxy a caller still holds. *)
Theorem write_after_teardown_raises w r l f p c :
  heap w !! r = Some (ObjLogger l) ->
  heap w !! lg_fp l = Some (ObjFile f) ->
  heap w !! p = Some (ObjProxy {| px_logger := r; px_channel := c |}) ->
  let w' := (SimpleLogger___del__ r w).2 in
  (forall ch lv msg ctx ex entry,
      log_entry (clock w') ch lv msg ctx ex = Ok entry ->
      SimpleLogger_write r ch lv msg ctx ex w'
      = (Raise (ValueError "I/O operation on closed file."), w')) /\
  (forall lv msg ctx entry,
      log_entry (clock w') c lv msg ctx PyNone = Ok entry ->
      call_log p lv msg ctx w'
      = (Raise (ValueError "I/O operation on closed file."), w')).
Proof.
  intros Hr Hf Hp w'.
  destruct (del_effect w r l f Hr Hf) as (w1 & f' & Hrun & Hr' & Hf' & Hc & Hsame).
  subst w'. rewrite Hrun. cbn [snd].
  assert (Hclosed : forall ch lv msg ctx ex entry,
             log_entry (clock w1) ch lv msg ctx ex = Ok entry ->
             SimpleLogger_write r ch lv msg ctx ex w1
             = (Raise (ValueError "I/O operation on closed file."), w1)).
  { intros ch lv msg ctx ex entry He.
    rewrite (write_run w1 r _ f' _ _ _ _ _ Hr' Hf'). by rewrite He, Hc. }
  split; [apply Hclosed|].
  intros lv msg ctx entry He.
  rewrite (proxy_call_log w1 p r c); [by apply (Hclosed _ _ _ _ _ entry)|].
  rewrite Hsame; [done| |].
  - intros E. rewrite E, Hr in Hp. discriminate.
  - intros E. rewrite E, Hf in Hp. discriminate.
Qed.

End Teardown.

(** X10: every call of [__del__] releases one entry, the first: after
    [n] calls the registry has lost its [n] first entries; the call
    raises [RuntimeError] as long as an entry is left and returns once
    the registry is empty. *)
Theorem teardown_releases_one_entry_per_call n w r l f :
  heap w !! r = Some (ObjLogger l) ->
  heap w !! lg_fp l = Some (ObjFile f) ->
  heap (after_teardowns n r w) !! r
  = Some (ObjLogger {| lg_fp := lg_fp l;
                       lg_proxy_registry := drop n (lg_proxy_registry l) |}) /\
  (SimpleLogger___del__ r (after_teardowns n r w)).1
  = if decide (n < length (lg_proxy_registry l))
    then Raise (RuntimeError "dictionary changed size during iteration")
    else Ok tt.
Proof.
  intros Hr Hf.
  destruct (after_teardowns_effect n w r l f Hr Hf) as [Hrn [fn Hfn]].
  split; [done|].
  destruct (del_effect _ r _ fn Hrn Hfn) as (w' & f' & Hrun & _).
  rewrite Hrun. cbn [fst lg_proxy_registry].
  destruct (decide (n < length (lg_proxy_registry l))) as [Hlt|Hge].
  - destruct (drop n (lg_proxy_registry l)) eqn:Hdrop; [|done].
    apply (f_equal length) in Hdrop. rewrite length_drop in Hdrop.
    simpl in Hdrop. lia.
  - rewrite drop_ge by lia. done.
Qed.

(** X11: the identity of a proxy does not survive teardown: when
    [__del__] has released the entry of the name [c], the next [fork(c)]
    makes a new proxy, another object than the one registered before,
    which itself is still there. *)
Theorem fork_after_teardown_makes_new_proxy w r l f c q px rest :
  heap w !! r = Some (ObjLogger l) ->
  heap w !! lg_fp l = Some (ObjFile f) ->
  lg_proxy_registry l = (c, q) :: rest ->
  dict_get c rest = None ->
  heap w !! q = Some (ObjProxy px) ->
  let w' := (SimpleLogger___del__ r w).2 in
  exists q' w'',
    SimpleLogger_fork r c w' = (Ok q', w'') /\
    q' ≠ q /\ heap w' !! q' = None /\
    heap w'' !! q = Some (ObjProxy px) /\
    heap w'' !! q' = Some (ObjProxy {| px_logger := r; px_channel := c |}).
Proof.
  intros Hr Hf Hreg Hrest Hq w'.
  destruct (del_effect w r l f Hr Hf) as (w1 & f' & Hrun & Hr' & Hf' & _ & Hsame).
  subst w'. rewrite Hrun. cbn [snd]. rewrite Hreg in Hr'. cbn [drop] in Hr'.
  assert (Hq1 : heap w1 !! q = Some (ObjProxy px)).
  { rewrite Hsame; [done| |].
    - intros E. rewrite E, Hr in Hq. discriminate.
    - intros E. rewrite E, Hf in Hq. discriminate. }
  rewrite (fork_new w1 r _ c Hr' Hrest).
  eexists _, _. split; [reflexivity|].
  assert (Hne : q ≠ fresh (dom (heap w1))) by (by eapply fresh_ne).
  split; [done|]. split; [apply fresh_unused|]. cbn [heap set_heap].
  assert (Hqr : r ≠ q) by (intros E; rewrite <- E, Hr' in Hq1; discriminate).
  split.
  - by rewrite !lookup_insert_ne.
  - rewrite lookup_insert_ne, lookup_insert_eq; [done|].
    eapply fresh_ne. exact Hr'.
Qed.

(** ** Further properties: the lines of an entry *)

Section EntryLines.
Context `{UnicodeData}.

(** X12: the lines of an entry. An entry ends with a newline, and it
    holds exactly one newline more than the lower-cased channel, the
    upper-cased level, the message and [str(extra)] hold together: the
    timestamp and the JSON text of the context never break the line,
    whatever the context is, while a newline in the message is copied
    as it is. *)
Theorem entry_newlines now ch lv msg ctx ex e :
  log_entry now ch lv msg ctx ex = Ok e ->
  newlines e
  = 1 + newlines (str_lower ch) + newlines (str_upper lv) + newlines msg
    + newlines (py_str (if is_None ex then PyList [] else ex)) /\
  last e = Some NEWLINE.
Proof.
  intros (j & Hj & _ & ->)%log_entry_ok.
  exact (entry_text_newlines now ch lv msg _ ex j Hj).
Qed.

End EntryLines.

(** ** The further properties on the example worlds *)

Lemma w_fresh_ready :
  logger_ready w_fresh 1 {| lg_fp := 0; lg_proxy_registry := [(lit "app", 2)] |}
    {| f_name := x_log; f_mode := ModeW; f_pos := 0;
       f_closed := false; f_pending := [] |} [].
Proof.
  repeat split; try (vm_compute; reflexivity).
  exists true. vm_compute; reflexivity.
Defined.

Lemma w_fresh_bound : registry_bound w_fresh 1.
Proof.
  exists {| lg_fp := 0; lg_proxy_registry := [(lit "app", 2)] |}.
  split; [vm_compute; reflexivity|]. intros k q.
  cbn [lg_proxy_registry dict_get].
  destruct (decide (k = lit "app")) as [->|]; [|discriminate].
  intros [= <-]. vm_compute; reflexivity.
Defined.

Lemma w_fresh_serving : serving w_fresh 1 x_log [].
Proof.
  eexists _, _. split; [exact w_fresh_ready|].
  split; [right; reflexivity|]. split; [reflexivity|exact w_fresh_bound].
Defined.

(** The session that leads from [w_fresh] to [w_session4]; three of its
    calls log, and the last one raises. *)
Lemma example_session :
  session (H := ascii_only) 1 w_fresh
    (logged
       (call_leveled (H := ascii_only) Critical 3 (lit "payment failed")
          (PyDict [(PyStr (lit "order_id"), PyInt 42)]) w_session1).1
       (log_entry (H := ascii_only) (clock w_session1)
          (bound_channel w_session1 3) (spec_level_tag Critical)
          (lit "payment failed") (PyDict [(PyStr (lit "order_id"), PyInt 42)])
          PyNone)
     ++ (logged
           (call_log (H := ascii_only) 1 (lit "info") (lit "hello") PyNone
              (set_clock minute_later w_session2)).1
           (log_entry (H := ascii_only)
              (clock (set_clock minute_later w_session2))
              (bound_channel (set_clock minute_later w_session2) 1)
              (lit "info") (lit "hello") PyNone PyNone)
         ++ (logged
               (SimpleLogger_write (H := ascii_only) 1 (lit "app") (lit "info")
                  (lit "lost") (PyObject "set" (lit "{1}")) PyNone w_session3).1
               (log_entry (H := ascii_only) (clock w_session3) (lit "app")
                  (lit "info") (lit "lost") (PyObject "set" (lit "{1}")) PyNone)
             ++ [])))
    w_session4.
Proof.
  apply (session_fork 1 w_fresh 2 (lit "billing")
           (call_fork 2 (lit "billing") w_fresh).1 w_session1).
  { right. exists (lit "app"). vm_compute; reflexivity. }
  { apply surjective_pairing. }
  apply (session_leveled 1 w_session1 Critical 3 (lit "payment failed")
           (PyDict [(PyStr (lit "order_id"), PyInt 42)]) _ w_session2).
  { right. exists (lit "billing"). vm_compute; reflexivity. }
  { apply surjective_pairing. }
  apply (session_tick 1 w_session2 minute_later).
  apply (session_log 1 _ 1 (lit "info") (lit "hello") PyNone _ w_session3).
  { by left. }
  { apply surjective_pairing. }
  apply (session_write 1 w_session3 (lit "app") (lit "info") (lit "lost")
           (PyObject "set" (lit "{1}")) PyNone _ w_session4).
  { apply surjective_pairing. }
  apply session_end.
Defined.


Lemma session_keeps_proxies_witness :
  SimpleLogger_fork 1 (lit "app") w_session4 = (Ok 2, w_session4).
Proof.
  pose proof example_session as Hsession.
  apply (session_keeps_proxies (H := ascii_only) 1 x_log w_fresh _ w_session4 []
           (lit "app") 2 w_fresh_serving) in Hsession.
  - by destruct Hsession.
  - exists {| lg_fp := 0; lg_proxy_registry := [(lit "app", 2)] |}.
    repeat split; vm_compute; reflexivity.
Defined.

(** ["app"] and ["App"] are two names, so they have two proxies. *)
Lemma fork_same_proxy_iff_same_name_witness :
  2 = 3 <-> lit "app" = lit "App".
Proof.
  apply (fork_same_proxy_iff_same_name w_fresh 1 (lit "app") (lit "App") 2 3
           w_fresh (SimpleLogger_fork 1 (lit "App") w_fresh).2).
  - exact w_fresh_bound.
  - vm_compute; reflexivity.
  - vm_compute; reflexivity.
Defined.

Lemma fork_binds_to_root_witness :
  exists p,
    (call_fork 2 (lit "billing") w_fresh).1 = Ok p /\
    registered w_session1 1 (lit "billing") p.
Proof.
  destruct (fork_binds_to_root w_fresh 1 2 (lit "billing")
              (call_fork 2 (lit "billing") w_fresh).1 w_session1)
    as (p & Ho & Hreg & _).
  - exact w_fresh_bound.
  - right. exists (lit "app"). vm_compute; reflexivity.
  - apply surjective_pairing.
  - exists p. split; [exact Ho|exact Hreg].
Defined.

(** A [set] as context, and a message with a lone surrogate, which
    UTF-8 cannot encode: nothing has changed after the call. *)
Lemma write_fails_without_effect_witness :
  SimpleLogger_write (H := ascii_only) 1 (lit "app") (lit "info") (lit "m")
    (PyObject "set" (lit "{1}")) PyNone w_fresh
  = (Raise (TypeError "Object of type set is not JSON serializable"), w_fresh) /\
  SimpleLogger_write (H := ascii_only) 1 (lit "app") (lit "info") [55296%N]
    PyNone PyNone w_fresh
  = (Raise UnicodeEncodeError, w_fresh).
Proof.
  split.
  - destruct (write_fails_without_effect (H := ascii_only) w_fresh 1 _ _ []
                (lit "app") (lit "info") (lit "m") (PyObject "set" (lit "{1}"))
                PyNone w_fresh_ready) as (_ & Hformat & _).
    apply Hformat. vm_compute; reflexivity.
  - destruct (write_fails_without_effect (H := ascii_only) w_fresh 1 _ _ []
                (lit "app") (lit "info") [55296%N] PyNone PyNone w_fresh_ready)
      as (_ & _ & Hencode).
    apply (Hencode (lit "[2024-03-09 07:05:00] app.INFO: " ++ [55296%N]
                    ++ lit " [] []" ++ [NEWLINE])); vm_compute; reflexivity.
Defined.

Lemma constructor_all_or_nothing_witness :
  exists r data,
    (SimpleLogger___init__ x_log w0).1 = Ok r /\ serving w_fresh r x_log data.
Proof.
  destruct (constructor_all_or_nothing x_log w0
              (SimpleLogger___init__ x_log w0).1 w_fresh)
    as [(e & He & _) | (r & name & data & q & Ho & Hl & _ & Hserv & _)].
  - apply surjective_pairing.
  - vm_compute in He. discriminate He.
  - exists r, data. split; [exact Ho|].
    assert (E : At name = At x_log) by (rewrite <- Hl; vm_compute; reflexivity).
    injection E as ->. exact Hserv.
Defined.

(** A second constructor on another spelling of the path appends; under
    a umask that takes the write permission away, the second constructor
    is refused. *)
Lemma second_constructor_appends_witness :
  (exists r2 w2,
      SimpleLogger___init__ (lit "/tmp//x.log") w_fresh = (Ok r2, w2) /\
      r2 ≠ 1 /\ fs w2 = fs w_fresh) /\
  SimpleLogger___init__ x_log (SimpleLogger___init__ x_log w_umask).2
  = (Raise (OSError PermissionError), (SimpleLogger___init__ x_log w_umask).2).
Proof.
  split.
  - destruct (second_constructor_appends x_log (lit "/tmp//x.log") x_log
                w0 1 w_fresh) as (Happend & _).
    + vm_compute; reflexivity.
    + vm_compute; reflexivity.
    + vm_compute; reflexivity.
    + destruct (Happend 4 (SimpleLogger___init__ (lit "/tmp//x.log") w_fresh).2)
        as (data & l2 & f2 & Hne & Hfs & _); [vm_compute; reflexivity|].
      exists 4, (SimpleLogger___init__ (lit "/tmp//x.log") w_fresh).2.
      split; [vm_compute; reflexivity|]. split; [exact Hne|exact Hfs].
  - destruct (second_constructor_appends x_log x_log x_log
                w_umask 1 (SimpleLogger___init__ x_log w_umask).2)
      as (_ & Humask).
    + vm_compute; reflexivity.
    + vm_compute; reflexivity.
    + vm_compute; reflexivity.
    + apply Humask; vm_compute; reflexivity.
Defined.

(** The two loggers of [w_pair] write one entry each after the line the
    file held. *)
Lemma append_loggers_share_file_witness :
  file_text
    (SimpleLogger_write (H := ascii_only) 4 (lit "app") (lit "info") (lit "b")
       PyNone PyNone
       (SimpleLogger_write (H := ascii_only) 1 (lit "app") (lit "info") (lit "a")
          PyNone PyNone w_pair).2).2 x_log
  = Some ((lit "first" ++ [NEWLINE])
          ++ (lit "[2024-03-09 07:05:00] app.INFO: a [] []" ++ [NEWLINE])
          ++ (lit "[2024-03-09 07:05:00] app.INFO: b [] []" ++ [NEWLINE])).
Proof.
  destruct (append_loggers_share_file (H := ascii_only) w_pair
              (SimpleLogger_write (H := ascii_only) 1 (lit "app") (lit "info")
                 (lit "a") PyNone PyNone w_pair).2
              (SimpleLogger_write (H := ascii_only) 4 (lit "app") (lit "info")
                 (lit "b") PyNone PyNone
                 (SimpleLogger_write (H := ascii_only) 1 (lit "app") (lit "info")
                    (lit "a") PyNone PyNone w_pair).2).2
              1 {| lg_fp := 0; lg_proxy_registry := [(lit "app", 2)] |}
              {| f_name := x_log; f_mode := ModeA; f_pos := 6;
                 f_closed := false; f_pending := [] |}
              4 {| lg_fp := 3; lg_proxy_registry := [(lit "app", 5)] |}
              {| f_name := x_log; f_mode := ModeA; f_pos := 6;
                 f_closed := false; f_pending := [] |}
              (lit "first" ++ [NEWLINE])
              (lit "app") (lit "info") (lit "a") PyNone PyNone
              (lit "app") (lit "info") (lit "b") PyNone PyNone)
    as (e1 & e2 & _ & _ & He1 & He2 & _ & Htext & _).
  - repeat split; try (vm_compute; reflexivity).
    exists true. vm_compute; reflexivity.
  - repeat split; try (vm_compute; reflexivity).
    exists true. vm_compute; reflexivity.
  - reflexivity.
  - reflexivity.
  - reflexivity.
  - discriminate.
  - vm_compute; reflexivity.
  - vm_compute; reflexivity.
  - vm_compute in He1, He2. injection He1 as <-. injection He2 as <-.
    exact Htext.
Defined.

Lemma write_after_teardown_raises_witness :
  SimpleLogger_write (H := ascii_only) 1 (lit "app") (lit "info") (lit "m")
    PyNone PyNone (SimpleLogger___del__ 1 w_fresh).2
  = (Raise (ValueError "I/O operation on closed file."),
     (SimpleLogger___del__ 1 w_fresh).2).
Proof.
  destruct (write_after_teardown_raises (H := ascii_only) w_fresh 1
              {| lg_fp := 0; lg_proxy_registry := [(lit "app", 2)] |}
              {| f_name := x_log; f_mode := ModeW; f_pos := 0;
                 f_closed := false; f_pending := [] |}
              2 (lit "app")) as (Hwrite & _).
  - vm_compute; reflexivity.
  - vm_compute; reflexivity.
  - vm_compute; reflexivity.
  - apply (Hwrite (lit "app") (lit "info") (lit "m") PyNone PyNone
             (lit "[2024-03-09 07:05:00] app.INFO: m [] []" ++ [NEWLINE])).
    vm_compute; reflexivity.
Defined.

(** The logger of [w_billing] has two channels: the first two calls of
    [__del__] raise, the third returns. *)
Lemma teardown_releases_one_entry_per_call_witness :
  (SimpleLogger___del__ 1 (after_teardowns 1 1 w_billing)).1
  = Raise (RuntimeError "dictionary changed size during iteration") /\
  (SimpleLogger___del__ 1 (after_teardowns 2 1 w_billing)).1 = Ok tt.
Proof.
  split.
  - destruct (teardown_releases_one_entry_per_call 1 w_billing 1
                {| lg_fp := 0;
                   lg_proxy_registry := [(lit "app", 2); (lit "billing", 3)] |}
                {| f_name := x_log; f_mode := ModeW; f_pos := 0;
                   f_closed := false; f_pending := [] |})
      as [_ Hcall]; [vm_compute; reflexivity | vm_compute; reflexivity |].
    exact Hcall.
  - destruct (teardown_releases_one_entry_per_call 2 w_billing 1
                {| lg_fp := 0;
                   lg_proxy_registry := [(lit "app", 2); (lit "billing", 3)] |}
                {| f_name := x_log; f_mode := ModeW; f_pos := 0;
                   f_closed := false; f_pending := [] |})
      as [_ Hcall]; [vm_compute; reflexivity | vm_compute; reflexivity |].
    exact Hcall.
Defined.

Lemma fork_after_teardown_makes_new_proxy_witness :
  exists q' w'',
    SimpleLogger_fork 1 (lit "app") (SimpleLogger___del__ 1 w_fresh).2
    = (Ok q', w'') /\ q' ≠ 2.
Proof.
  destruct (fork_after_teardown_makes_new_proxy w_fresh 1
              {| lg_fp := 0; lg_proxy_registry := [(lit "app", 2)] |}
              {| f_name := x_log; f_mode := ModeW; f_pos := 0;
                 f_closed := false; f_pending := [] |}
              (lit "app") 2 {| px_logger := 1; px_channel := lit "app" |} [])
    as (q' & w'' & Hfork & Hne & _).
  - vm_compute; reflexivity.
  - vm_compute; reflexivity.
  - reflexivity.
  - reflexivity.
  - vm_compute; reflexivity.
  - exists q', w''. split; [exact Hfork|exact Hne].
Defined.

(** A message of two lines makes an entry of two lines. *)
Lemma entry_newlines_witness :
  newlines (lit "[2024-03-09 07:05:00] app.INFO: a" ++ [NEWLINE]
            ++ lit "b [] []" ++ [NEWLINE]) = 2.
Proof.
  destruct (entry_newlines (H := ascii_only) (clock w0) (lit "app") (lit "info")
              (lit "a" ++ [NEWLINE] ++ lit "b") PyNone PyNone
              (lit "[2024-03-09 07:05:00] app.INFO: a" ++ [NEWLINE]
               ++ lit "b [] []" ++ [NEWLINE]))
    as [Hcount _].
  - vm_compute; reflexivity.
  - rewrite Hcount. vm_compute; reflexivity.
Defined.
